(** * SEO toolkit of the blog generator: a shallow embedding and its properties

    The development follows [utils/seo_tools.py] and [utils/config.py]:
    - [PyStr]       the fragment of Python's [str] and [re] the toolkit uses,
    - [Keywords]    [FreeSEOTools.extract_keywords],
    - [Readability] [FreeSEOTools.calculate_readability],
    - [MetaTags]    [FreeSEOTools.generate_meta_tags],
    - [Competitors] [Config], [FreeSEOTools.get_google_search_results] and
                    [FreeSEOTools.analyze_competitors].
    - [CompetitorsMore] [Config.verify_config] and the events of a trace,
    - [App]         what [app.py] does with the toolkit: the keyword line,
                    the suggested meta tags, [display_competitor_analysis].

    Text is modelled on the Latin-1 range: a character is an [ascii] (a code
    point below 256) and the character classes are those of CPython 3 on
    these code points. *)

From Stdlib Require Import List ZArith NArith Lia Bool Ascii String Arith PeanoNat.
From Stdlib Require Import Sorting.Sorted Sorting.Permutation.
From Stdlib Require Import Floats.SpecFloat.
Import ListNotations.

Set Implicit Arguments.

(* ===================================================================== *)
(** ** Python strings *)
(* ===================================================================== *)

Module PyStr.

Definition code (c : ascii) : N := N_of_ascii c.

Definition between (lo hi : N) (c : ascii) : bool :=
  ((lo <=? code c) && (code c <=? hi))%N.

Definition is_code (n : N) (c : ascii) : bool := (code c =? n)%N.

(** [str.isdigit] on one character: 0-9 and the superscripts 2, 3, 1. *)
Definition isdigit_char (c : ascii) : bool :=
  between 48 57 c || is_code 178 c || is_code 179 c || is_code 185 c.

(** [str.isspace] on one character; it is the class [str.split()] and
    [str.strip()] use. *)
Definition isspace (c : ascii) : bool :=
  between 9 13 c || between 28 32 c || is_code 133 c || is_code 160 c.

(** The class [\w] of [re] on a [str] pattern: alphanumerics and [_]. *)
Definition is_word (c : ascii) : bool :=
  between 48 57 c || between 65 90 c || is_code 95 c || between 97 122 c
  || is_code 170 c || between 178 179 c || is_code 181 c || between 185 186 c
  || between 188 190 c || between 192 214 c || between 216 246 c
  || between 248 255 c.

Definition lower_char (c : ascii) : ascii :=
  if between 65 90 c || between 192 214 c || between 216 222 c
  then ascii_of_N (code c + 32) else c.

(** [s.lower()] *)
Fixpoint lower (s : string) : string :=
  match s with
  | EmptyString => EmptyString
  | String c s' => String (lower_char c) (lower s')
  end.

Definition snoc (s : string) (c : ascii) : string :=
  (s ++ String c EmptyString)%string.

Fixpoint forall_chars (p : ascii -> bool) (s : string) : bool :=
  match s with
  | EmptyString => true
  | String c s' => p c && forall_chars p s'
  end.

(** [s.isdigit()]: every character is a digit and there is at least one. *)
Definition isdigit (s : string) : bool :=
  match s with
  | EmptyString => false
  | _ => forall_chars isdigit_char s
  end.

(** Truth value of a [str]: non-empty. *)
Definition truthy (s : string) : bool :=
  match s with EmptyString => false | _ => true end.

(** *** [re.findall(r'\b\w{3,}\b', s)]

    A match starts at a word boundary, [\w{3,}] is greedy and the closing
    [\b] refuses to stop inside a run of word characters, so the matches
    are the maximal runs of word characters that have three characters or
    more, from left to right. [cur] is the run being read. *)
Definition emit_word3 (cur : string) : list string :=
  if (3 <=? String.length cur)%nat then [cur] else [].

Fixpoint findall_word3_from (cur s : string) : list string :=
  match s with
  | EmptyString => emit_word3 cur
  | String c s' =>
      if is_word c then findall_word3_from (snoc cur c) s'
      else emit_word3 cur ++ findall_word3_from EmptyString s'
  end.

Definition findall_word3 (s : string) : list string :=
  findall_word3_from EmptyString s.

(** *** [s.split()]: the maximal runs of non-blank characters. *)
Definition emit_nonempty (cur : string) : list string :=
  if truthy cur then [cur] else [].

Fixpoint split_from (cur s : string) : list string :=
  match s with
  | EmptyString => emit_nonempty cur
  | String c s' =>
      if isspace c then emit_nonempty cur ++ split_from EmptyString s'
      else split_from (snoc cur c) s'
  end.

Definition split (s : string) : list string := split_from EmptyString s.

(** *** [re.split(r'[...]', s)] for a character class [sep]: the pieces
    between separators, empty pieces included. *)
Fixpoint re_split_from (sep : ascii -> bool) (cur s : string) : list string :=
  match s with
  | EmptyString => [cur]
  | String c s' =>
      if sep c then cur :: re_split_from sep EmptyString s'
      else re_split_from sep (snoc cur c) s'
  end.

Definition re_split (sep : ascii -> bool) (s : string) : list string :=
  re_split_from sep EmptyString s.

(** *** [s.strip()] *)
Fixpoint lstrip (s : string) : string :=
  match s with
  | EmptyString => EmptyString
  | String c s' => if isspace c then lstrip s' else s
  end.

Fixpoint rstrip (s : string) : string :=
  match s with
  | EmptyString => EmptyString
  | String c s' =>
      match rstrip s' with
      | EmptyString => if isspace c then EmptyString else String c EmptyString
      | r => String c r
      end
  end.

Definition strip (s : string) : string := rstrip (lstrip s).

(** [sep.join(l)] *)
Fixpoint join (sep : string) (l : list string) : string :=
  match l with
  | [] => EmptyString
  | [x] => x
  | x :: l' => (x ++ sep ++ join sep l')%string
  end.

(** [sub in s] *)
Definition contains (s sub : string) : Prop :=
  exists pre post, s = (pre ++ sub ++ post)%string.

(** [l[:n]] for an integer [n]: a negative bound counts from the end. *)
Definition slice_to (A : Type) (n : Z) (l : list A) : list A :=
  if (0 <=? n)%Z then firstn (Z.to_nat n) l
  else firstn (Z.to_nat (Z.of_nat (List.length l) + n)) l.

End PyStr.

(* ===================================================================== *)
(** ** Keyword extractor *)
(* ===================================================================== *)

Module Keywords.
Import PyStr.
Local Open Scope string_scope.

Definition stop_words : list string :=
  [ "the"; "and"; "of"; "to"; "in"; "is"; "it"; "that"; "for";
    "you"; "was"; "on"; "are"; "with"; "as"; "at"; "be";
    "this"; "have"; "from"; "or"; "an"; "by"; "not" ].

(** [word in stop_words] *)
Definition is_stop_word (w : string) : bool :=
  existsb (String.eqb w) stop_words.

Definition keep_word (w : string) : bool :=
  negb (is_stop_word w) && negb (isdigit w).

(** *** [collections.Counter]

    A [Counter] is a [dict]: keys keep the order of their first insertion
    and counting a key again updates its entry in place. *)
Definition counter := list (string * nat).

Fixpoint counter_incr (w : string) (c : counter) : counter :=
  match c with
  | [] => [(w, 1)]
  | (k, n) :: c' =>
      if String.eqb k w then (k, S n) :: c' else (k, n) :: counter_incr w c'
  end.

Definition Counter (ws : list string) : counter :=
  fold_left (fun c w => counter_incr w c) ws [].

(** [{word: count * len(word) for word, count in Counter(...).items()}] *)
Definition word_scores_of (c : counter) : list (string * nat) :=
  map (fun '(word, count) => (word, count * String.length word)) c.

Definition keys (d : list (string * nat)) : list string := map fst d.

(** [d[x]]; the extractor only looks up keys of [d]. *)
Fixpoint getitem (d : list (string * nat)) (x : string) : nat :=
  match d with
  | [] => 0
  | (k, v) :: d' => if String.eqb k x then v else getitem d' x
  end.

(** *** [sorted(l, key=key, reverse=True)]

    Python's sort is stable, also under [reverse=True]: the result is in
    decreasing key order and elements with equal keys keep their order in
    [l]. Each element is put in front of the sorted rest and moves right
    past the elements with a strictly larger key. *)
Section SortedReverse.
Variable key : string -> nat.

Fixpoint insert_desc (x : string) (l : list string) : list string :=
  match l with
  | [] => [x]
  | y :: l' => if (key x <? key y)%nat then y :: insert_desc x l' else x :: l
  end.

Definition sorted_reverse (l : list string) : list string :=
  fold_right insert_desc [] l.
End SortedReverse.

Definition extract_keywords (text : string) (top_n : Z) : list string :=
  let words := findall_word3 (lower text) in
  let filtered_words := filter keep_word words in
  let word_scores := word_scores_of (Counter filtered_words) in
  slice_to top_n (sorted_reverse (getitem word_scores) (keys word_scores)).

(** The sorted keys of [extract_keywords], before the slice. *)
Definition ranking (text : string) : list string :=
  let word_scores :=
    word_scores_of (Counter (filter keep_word (findall_word3 (lower text)))) in
  sorted_reverse (getitem word_scores) (keys word_scores).

End Keywords.

(** *** Reference computation of the keyword list

    The ranking as the specification words it: the tokens of word characters
    with at least three characters of the lower-cased text, without
    stop-words and purely numeric tokens; each distinct token scored by its
    frequency times its length; the distinct tokens in decreasing score
    order, ties in the order of first encounter; the first [top_n] of
    them. *)
Module KeywordsRef.
Import PyStr.

Definition non_word (c : ascii) : bool := negb (is_word c).

(** The runs of word characters are the pieces between the other
    characters. *)
Definition tokens (text : string) : list string :=
  filter (fun w => 3 <=? String.length w) (re_split non_word (lower text)).

Definition kept (text : string) : list string :=
  filter (fun w => negb (Keywords.is_stop_word w) && negb (isdigit w))
         (tokens text).

(** The distinct elements of a list, in the order of first encounter. *)
Fixpoint distinct (l : list string) : list string :=
  match l with
  | [] => []
  | x :: l' => x :: filter (fun y => negb (String.eqb x y)) (distinct l')
  end.

Definition frequency (ws : list string) (w : string) : nat :=
  count_occ string_dec ws w.

Definition score (ws : list string) (w : string) : nat :=
  frequency ws w * String.length w.

(** Position of the first occurrence of [w] in [ws]. *)
Fixpoint first_index (ws : list string) (w : string) : nat :=
  match ws with
  | [] => 0
  | x :: ws' => if String.eqb x w then 0 else S (first_index ws' w)
  end.

(** [x] is ranked before [y]: a larger score, or the same score and an
    earlier first encounter. *)
Definition ranks_before (ws : list string) (x y : string) : bool :=
  (score ws y <? score ws x)
  || ((score ws x =? score ws y) && (first_index ws x <? first_index ws y)).

Fixpoint insert_ranked (ws : list string) (x : string) (l : list string)
  : list string :=
  match l with
  | [] => [x]
  | y :: l' =>
      if ranks_before ws x y then x :: l else y :: insert_ranked ws x l'
  end.

Definition ranked (ws : list string) (l : list string) : list string :=
  fold_right (insert_ranked ws) [] l.

Definition extract_keywords_ref (text : string) (top_n : Z) : list string :=
  firstn (Z.to_nat top_n) (ranked (kept text) (distinct (kept text))).

(** Each distinct token with its frequency. *)
Definition tally (ws : list string) : list (string * nat) :=
  map (fun w => (w, frequency ws w)) (distinct ws).

(** [a] is first met before [b]. *)
Definition earlier (ws : list string) (a b : string) : Prop :=
  first_index ws a < first_index ws b.

End KeywordsRef.

(* ===================================================================== *)
(** ** Python numbers: [int] and [float] *)
(* ===================================================================== *)

(** A [float] is an IEEE 754 binary64 number, [spec_float] at precision 53.
    The operations are the correctly rounded ones (round to nearest, ties to
    even), as CPython computes them. *)
Module PyNum.

Definition prec : Z := 53.
Definition emax : Z := 1024.

Inductive number :=
| PyInt (z : Z)
| PyFloat (f : spec_float).

(** [a / b] on [int]s, for [b <> 0] (Python raises [ZeroDivisionError] at
    [b = 0]; the readability code guards both of its divisions): the float
    nearest to the exact quotient. *)
Definition int_true_divide (a b : Z) : spec_float :=
  match a with
  | Z0 => S754_zero (b <? 0)%Z
  | _ =>
      let '(mz, ez, lz) :=
        SFdiv_core_binary prec emax (Z.abs a) 0 (Z.abs b) 0 in
      binary_round_aux prec emax (xorb (a <? 0)%Z (b <? 0)%Z) mz ez lz
  end.

(** [float(n)] for an [int] that a float holds exactly. *)
Definition float_of_int (n : Z) : spec_float :=
  binary_normalize prec emax n 0 false.

(** [x > n] for an [int] literal [n]. *)
Definition gt_int (x : number) (n : Z) : bool :=
  match x with
  | PyInt z => (n <? z)%Z
  | PyFloat f => SFltb (float_of_int n) f
  end.

(** The integer nearest to [n / p], ties to the even one ([0 <= n],
    [0 < p]). *)
Definition nearest_even (n p : Z) : Z :=
  let q := (n / p)%Z in
  match (2 * (n mod p) ?= p)%Z with
  | Lt => q
  | Gt => (q + 1)%Z
  | Eq => if Z.even q then q else (q + 1)%Z
  end.

(** [round(x, 1)] on a float: the decimal with one digit after the point
    nearest to the exact value of [x] (ties to even), then the float
    nearest to that decimal. A float with a non-negative exponent is an
    integer and rounds to itself. *)
Definition round1_float (f : spec_float) : spec_float :=
  match f with
  | S754_finite s m e =>
      if (0 <=? e)%Z then f
      else
        match nearest_even (10 * Zpos m) (2 ^ (- e)) with
        | Z0 => S754_zero s
        | d => int_true_divide (if s then (- d)%Z else d) 10
        end
  | _ => f
  end.

(** [round(x, 1)]: an [int] rounds to itself. *)
Definition round1 (x : number) : number :=
  match x with
  | PyInt z => PyInt z
  | PyFloat f => PyFloat (round1_float f)
  end.

End PyNum.

(* ===================================================================== *)
(** ** Readability analyzer *)
(* ===================================================================== *)

Module Readability.
Import PyStr PyNum.
Local Open Scope string_scope.
Local Open Scope Z_scope.

Record report := {
  word_count : Z;
  sentence_count : Z;
  avg_sentence_length : number;
  avg_word_length : number;
  reading_level : string
}.

(** The class [[.!?]]. *)
Definition sentence_end (c : ascii) : bool :=
  is_code 46 c || is_code 33 c || is_code 63 c.

Definition len (A : Type) (l : list A) : Z := Z.of_nat (List.length l).

(** [sum(len(word) for word in words)] *)
Definition total_length (words : list string) : Z :=
  fold_left (fun acc word => acc + Z.of_nat (String.length word)) words 0.

(** ['College' if x > 20 else 'High School' if x > 15 else 'Easy'] *)
Definition level_of (x : number) : string :=
  if gt_int x 20 then "College"
  else if gt_int x 15 then "High School"
  else "Easy".

(** The two averages before rounding. *)
Definition raw_avg_sentence_length (word_count sentence_count : Z) : number :=
  if 0 <? sentence_count
  then PyFloat (int_true_divide word_count sentence_count)
  else PyInt 0.

Definition raw_avg_word_length (words : list string) (word_count : Z) : number :=
  if 0 <? word_count
  then PyFloat (int_true_divide (total_length words) word_count)
  else PyInt 0.

Definition calculate_readability (text : string) : report :=
  let sentences := re_split sentence_end text in
  let words := split text in
  let word_count := len words in
  let sentence_count := len (filter (fun s => truthy (strip s)) sentences) in
  let avg_sentence_length := raw_avg_sentence_length word_count sentence_count in
  let avg_word_length := raw_avg_word_length words word_count in
  {| word_count := word_count;
     sentence_count := sentence_count;
     avg_sentence_length := round1 avg_sentence_length;
     avg_word_length := round1 avg_word_length;
     reading_level := level_of avg_sentence_length |}.

End Readability.

(* ===================================================================== *)
(** ** Meta-tag generator *)
(* ===================================================================== *)

Module MetaTags.
Import PyStr.
Local Open Scope string_scope.

(** An f-string: literal text and replacement fields. A field holding a
    [str] is replaced by the string itself. *)
Inductive part :=
| Lit (s : string)
| Field (value : string).

Definition render_part (p : part) : string :=
  match p with
  | Lit s => s
  | Field v => v
  end.

Definition fstring (parts : list part) : string :=
  fold_right (fun p acc => render_part p ++ acc) EmptyString parts.

Definition dq : string := String (ascii_of_nat 34) EmptyString.
Definition nl : string := String (ascii_of_nat 10) EmptyString.
Definition indent : string := "        ".

(** The start of a [<meta>] tag: the attribute naming it, then [content=]
    and the opening quote of the content. *)
Definition meta_open (attr name : string) : string :=
  "<meta " ++ attr ++ "=" ++ dq ++ name ++ dq ++ " content=" ++ dq.

Definition generate_meta_tags (title description : string)
           (keywords : list string) : string :=
  let keywords_str := join ", " keywords in
  fstring
    [ Lit (nl ++ indent ++ "<title>"); Field title;
      Lit ("</title>" ++ nl ++ indent ++ meta_open "name" "description");
      Field description;
      Lit (dq ++ ">" ++ nl ++ indent ++ meta_open "name" "keywords");
      Field keywords_str;
      Lit (dq ++ ">" ++ nl ++ indent ++ meta_open "property" "og:title");
      Field title;
      Lit (dq ++ ">" ++ nl ++ indent ++ meta_open "property" "og:description");
      Field description;
      Lit (dq ++ ">" ++ nl ++ indent) ].

End MetaTags.

(* ===================================================================== *)
(** ** Competitor analyzer *)
(* ===================================================================== *)

Module Competitors.
Import PyStr.
Local Open Scope string_scope.
Local Open Scope list_scope.

(** *** Configuration ([utils/config.py]) *)

Record Config := {
  GOOGLE_API_KEY : option string;
  GOOGLE_CSE_ID : string
}.

(** The process environment behind [os.getenv]. *)
Definition environ := string -> option string.

Definition getenv (env : environ) (name : string) : option string := env name.

Definition getenv_default (env : environ) (name default : string) : string :=
  match env name with
  | Some v => v
  | None => default
  end.

Definition load_config (env : environ) : Config :=
  {| GOOGLE_API_KEY := getenv env "GOOGLE_API_KEY";
     GOOGLE_CSE_ID := getenv_default env "GOOGLE_CSE_ID" EmptyString |}.

(** *** Data *)

(** An instance of [Exception]: its class and [str(e)]. *)
Record exception := Exc { exc_class : string; exc_str : string }.

Inductive pyval :=
| PStr (s : string)
| PInt (z : Z).

(** A search result, a [dict]; the analyzer reads the keys ['link'] and
    ['rank']. *)
Record item := {
  link : option string;
  rank : option pyval
}.

Record search_params := {
  key : option string;
  cx : string;
  q : string;
  num : Z
}.

(** The response of the search request: [response.json()] raises or gives
    a [dict], of which [json_items] is the entry ['items'] when there is
    one. *)
Record search_response := {
  status_code : Z;
  json_items : exception + option (list item)
}.

(** What the analyzer asks of a parsed page. [soup_title] is [soup.title]
    and inside it [.string], which is [None] for a title without a single
    text child; [soup_h1] is the text of the first [h1];
    [soup_meta_description] is the first [meta] tag named [description]
    and inside it the attribute [content], which the tag may lack. *)
Record soup := {
  soup_title : option (option string);
  soup_h1 : option string;
  soup_meta_description : option (option string);
  soup_text : string
}.

(** A row of the competitor table. *)
Record competitor := {
  URL : string;
  Title : option string;
  H1 : string;
  Meta_Description : string;
  Word_Count : Z;
  Rank : pyval
}.

(** *** The outside world

    What the program does to the world is recorded as a trace; what the
    world answers is given by oracles. The answer to a page request may
    depend on the url and on how many pages were requested before. *)
Inductive event :=
| EvSearch (p : search_params)
| EvGet (url : string)
| EvPrint (line : string)
| EvSleep (seconds : Z).

Definition trace := list event.

Record World := {
  search_get : search_params -> exception + search_response;
  page_get : nat -> string -> exception + string;
  BeautifulSoup : string -> exception + soup
}.

Definition is_get (e : event) : bool :=
  match e with EvGet _ => true | _ => false end.

Definition is_search (e : event) : bool :=
  match e with EvSearch _ => true | _ => false end.

Definition pages_requested (tr : trace) : nat :=
  List.length (filter is_get tr).

(** *** Computations that may raise and that leave a trace *)
Definition M (A : Type) : Type := trace -> (exception + A) * trace.

Definition ret {A} (a : A) : M A := fun tr => (inr a, tr).

Definition raise {A} (e : exception) : M A := fun tr => (inl e, tr).

Definition bind {A B} (m : M A) (f : A -> M B) : M B :=
  fun tr =>
    match m tr with
    | (inr a, tr') => f a tr'
    | (inl e, tr') => (inl e, tr')
    end.

(** [try: body  except Exception as e: handler(e)] *)
Definition try_except {A} (body : M A) (handler : exception -> M A) : M A :=
  fun tr =>
    match body tr with
    | (inr a, tr') => (inr a, tr')
    | (inl e, tr') => handler e tr'
    end.

Definition emit (ev : event) : M unit := fun tr => (inr tt, tr ++ [ev]).

(** An oracle's answer: a value or a raised exception. *)
Definition answer {A} (r : exception + A) : M A := fun tr => (r, tr).

Notation "x <- m ;; k" := (bind m (fun x => k))
  (at level 61, m at next level, right associativity).
Notation "m ;;; k" := (bind m (fun _ => k))
  (at level 61, right associativity).

Definition print (line : string) : M unit := emit (EvPrint line).
Definition sleep (seconds : Z) : M unit := emit (EvSleep seconds).

(** *** The program *)
Section Program.
Variable cfg : Config.
Variable world : World.

(** [requests.get(url, params=params)] to the search API. *)
Definition requests_get_search (p : search_params) : M search_response :=
  fun tr => (search_get world p, tr ++ [EvSearch p]).

(** [requests.get(url, headers=headers, timeout=10).text] *)
Definition requests_get_page (url : string) : M string :=
  fun tr => (page_get world (pages_requested tr) url, tr ++ [EvGet url]).

(** [response.json().get('items', [])] *)
Definition json_get_items (response : search_response) : M (list item) :=
  json <- answer (json_items response) ;;
  ret (match json with Some items => items | None => [] end).

(** The [params] of the search request. *)
Definition search_request (query : string) (num_results : Z)
  : search_params :=
  {| key := GOOGLE_API_KEY cfg;
     cx := GOOGLE_CSE_ID cfg;
     q := query;
     num := num_results |}.

Definition get_google_search_results (query : string) (num_results : Z)
  : M (list item) :=
  if negb (truthy (GOOGLE_CSE_ID cfg)) then ret []
  else
    try_except
      (response <- requests_get_search (search_request query num_results) ;;
       if (status_code response =? 200)%Z then json_get_items response
       else ret [])
      (fun e =>
         print ("Error fetching Google results: " ++ exc_str e)%string ;;;
         ret []).

(** [item.get('link', '')] and [item.get('rank', '')] *)
Definition item_url (it : item) : string :=
  match link it with Some u => u | None => EmptyString end.

Definition item_rank (it : item) : pyval :=
  match rank it with Some r => r | None => PStr EmptyString end.

(** [meta_desc['content']]: a [KeyError] when the tag has no such
    attribute. *)
Definition getitem_content (content : option string) : M string :=
  match content with
  | Some c => ret c
  | None => raise (Exc "KeyError" "'content'")
  end.

(** One turn of the loop. [url] is bound before anything can raise, so
    the handler can print it; nothing raises after the [append], so the
    handler continues with the list as it was. *)
Definition analyze_item (it : item) (competitor_data : list competitor)
  : M (list competitor) :=
  let url := item_url it in
  try_except
    (text <- requests_get_page url ;;
     soup <- answer (BeautifulSoup world text) ;;
     let title :=
       match soup_title soup with
       | Some t => t
       | None => Some "No title"
       end in
     let h1 :=
       match soup_h1 soup with
       | Some t => t
       | None => "No H1"
       end in
     meta_desc <- match soup_meta_description soup with
                  | Some tag => getitem_content tag
                  | None => ret "No meta description"
                  end ;;
     let word_count := Z.of_nat (List.length (split (soup_text soup))) in
     let competitor_data :=
       competitor_data ++ [ {| URL := url;
                               Title := title;
                               H1 := h1;
                               Meta_Description := meta_desc;
                               Word_Count := word_count;
                               Rank := item_rank it |} ] in
     sleep 2 ;;;
     ret competitor_data)
    (fun e =>
       print ("Error analyzing " ++ url ++ ": " ++ exc_str e)%string ;;;
       ret competitor_data).

(** [for item in results: ...] *)
Fixpoint analyze_results (results : list item)
         (competitor_data : list competitor) : M (list competitor) :=
  match results with
  | [] => ret competitor_data
  | it :: rest =>
      competitor_data <- analyze_item it competitor_data ;;
      analyze_results rest competitor_data
  end.

(** The rows of the returned [DataFrame]. *)
Definition analyze_competitors (query : string) (num_competitors : Z)
  : M (list competitor) :=
  results <- get_google_search_results query num_competitors ;;
  analyze_results results [].

(** *** What the table should hold

    A page is usable when the request for it returns, the parser
    accepts the text and the description tag, if there is one, has a
    [content]. *)
Definition usable_soup (s : soup) : bool :=
  match soup_meta_description s with
  | Some None => false
  | _ => true
  end.

Definition row_of (it : item) (s : soup) : competitor :=
  {| URL := item_url it;
     Title := match soup_title s with Some t => t | None => Some "No title" end;
     H1 := match soup_h1 s with Some t => t | None => "No H1" end;
     Meta_Description :=
       match soup_meta_description s with
       | Some (Some c) => c
       | _ => "No meta description"
       end;
     Word_Count := Z.of_nat (List.length (split (soup_text s)));
     Rank := item_rank it |}.

(** The page behind [it] when it is the [k]-th page requested. *)
Definition fetched_page (k : nat) (it : item) : option soup :=
  match page_get world k (item_url it) with
  | inl _ => None
  | inr text =>
      match BeautifulSoup world text with
      | inl _ => None
      | inr s => Some s
      end
  end.

Definition page_row (k : nat) (it : item) : option competitor :=
  match fetched_page k it with
  | Some s => if usable_soup s then Some (row_of it s) else None
  | None => None
  end.

(** The rows of the pages that succeed, in the order of [results]; the
    first of them is the [k]-th page requested. *)
Fixpoint rows_from (k : nat) (results : list item) : list competitor :=
  match results with
  | [] => []
  | it :: rest =>
      match page_row k it with
      | Some r => r :: rows_from (S k) rest
      | None => rows_from (S k) rest
      end
  end.

End Program.

End Competitors.

(* ===================================================================== *)
(** ** Sample inputs *)
(* ===================================================================== *)

Module Samples.
Import PyStr PyNum Competitors.
Local Open Scope string_scope.

(** A sentence of [n] one-letter words. *)
Definition sentence (n : nat) : string := join " " (repeat "a" n) ++ ".".

(** One sentence of fifteen words. *)
Definition fifteen_words : string := sentence 15.

(** Twenty sentences of fifteen words and one of sixteen: 316 words in
    21 sentences, 15.047... words a sentence. *)
Definition long_text : string :=
  join " " (repeat (sentence 15) 20 ++ [sentence 16])%list.

Definition no_environ : environ := fun _ => None.

(** Only the search engine id is set. *)
Definition cse_only_environ : environ :=
  fun name => if String.eqb name "GOOGLE_CSE_ID" then Some "engine" else None.

Definition timeout : exception :=
  Exc "ReadTimeout" "Read timed out. (read timeout=10)".

Definition page_a : soup :=
  {| soup_title := Some (Some "Page A");
     soup_h1 := Some "Heading A";
     soup_meta_description := Some (Some "About A");
     soup_text := "Page A Heading A some words" |}.

(** A page without title, heading and description. *)
Definition bare_page : soup :=
  {| soup_title := None;
     soup_h1 := None;
     soup_meta_description := None;
     soup_text := "just text" |}.

(** A page without title and heading whose description tag has no
    [content]. *)
Definition contentless_page : soup :=
  {| soup_title := None;
     soup_h1 := None;
     soup_meta_description := Some None;
     soup_text := "just text" |}.

Definition result (url : string) : item :=
  {| link := Some url; rank := None |}.

Definition three_results : list item :=
  [ result "http://a.example"; result "http://slow.example";
    result "http://bare.example" ].

(** A world whose search gives [results], where [http://slow.example]
    times out and the other pages parse to the soups above. The text of a
    page stands for itself: it is the url it was fetched from. *)
Definition sample_world (results : list item) : World :=
  {| search_get := fun _ =>
       inr {| status_code := 200; json_items := inr (Some results) |};
     page_get := fun _ url =>
       if String.eqb url "http://slow.example" then inl timeout else inr url;
     BeautifulSoup := fun text =>
       if String.eqb text "http://a.example" then inr page_a
       else if String.eqb text "http://bare.example" then inr bare_page
       else inr contentless_page |}.

Definition sample_config : Config :=
  {| GOOGLE_API_KEY := Some "key"; GOOGLE_CSE_ID := "engine" |}.

End Samples.

(* ===================================================================== *)
(** ** More of the toolkit and of its callers *)
(* ===================================================================== *)

(** *** Character classes and counts *)
Module PyStrMore.
Import PyStr.

(** [c] is a lower-case character: [lower_char] leaves it alone. *)
Definition is_lower (c : ascii) : bool := Ascii.eqb (lower_char c) c.

Definition nonspace (c : ascii) : bool := negb (isspace c).

(** The number of characters of [s] in the class [p]. *)
Fixpoint count_chars (p : ascii -> bool) (s : string) : nat :=
  match s with
  | EmptyString => 0
  | String c s' => (if p c then 1 else 0) + count_chars p s'
  end.

(** A word as [split] gives them: not empty and without blanks. *)
Definition is_token (w : string) : bool :=
  truthy w && forall_chars nonspace w.

End PyStrMore.

(** *** [Config.verify_config] and the events of a trace *)
Module CompetitorsMore.
Import PyStr Competitors.
Local Open Scope string_scope.
Local Open Scope list_scope.

(** What a trace holds of each kind of event. *)
Definition fetched_urls (tr : trace) : list string :=
  flat_map (fun e => match e with EvGet url => [url] | _ => [] end) tr.

Definition sleeps (tr : trace) : list Z :=
  flat_map (fun e => match e with EvSleep s => [s] | _ => [] end) tr.

Definition printed (tr : trace) : list string :=
  flat_map (fun e => match e with EvPrint line => [line] | _ => [] end) tr.

Definition searches (tr : trace) : list search_params :=
  flat_map (fun e => match e with EvSearch p => [p] | _ => [] end) tr.

(** Truth value of a string that may be [None]. *)
Definition truthy_opt (o : option string) : bool :=
  match o with
  | Some s => truthy s
  | None => false
  end.

Definition cse_warning : string :=
  "Warning: Google CSE ID not set. Some SEO features will be limited.".

(** [Config.verify_config()] *)
Definition verify_config (cfg : Config) : M unit :=
  if negb (truthy_opt (GOOGLE_API_KEY cfg)) then
    raise (Exc "ValueError"
             "Google API key is required. Please set GOOGLE_API_KEY in .env file.")
  else if negb (truthy (GOOGLE_CSE_ID cfg)) then print cse_warning
  else ret tt.

End CompetitorsMore.

(** *** Reading levels in order *)
Module Tier.
Import PyNum Readability.
Local Open Scope string_scope.

(** The rank of a reading level. *)
Definition tier (level : string) : nat :=
  if String.eqb level "College" then 2
  else if String.eqb level "High School" then 1
  else 0.

End Tier.

(** *** The application ([app.py]): what it does with the toolkit *)
Module App.
Import PyStr PyStrMore Keywords MetaTags Competitors.
Local Open Scope string_scope.
Local Open Scope list_scope.

(** [' '.join(seo_text.split()[:25])], the description of the meta tags
    suggested for a pasted text. *)
Definition suggested_description (seo_text : string) : string :=
  join " " (slice_to 25 (split seo_text)).

Definition is_comma (c : ascii) : bool := is_code 44 c.

Definition no_comma (c : ascii) : bool := negb (is_comma c).

(** [s.split(",")]: the pieces between the commas, empty pieces included. *)
Definition split_commas (s : string) : list string := re_split is_comma s.

(** [[k.strip() for k in keywords_input.split(",")] if keywords_input else []] *)
Definition parse_keywords (keywords_input : string) : list string :=
  if truthy keywords_input then map strip (split_commas keywords_input)
  else [].

(** *** [display_competitor_analysis]

    What the function shows, as a list of calls to the user interface, and
    what it returns. The spinner around the analysis is left out. *)
Inductive ui :=
| StSubheader (text : string)
| StDataframe (df : list competitor)
| StWrite (label text : string)
| StWarning (text : string).

(** [series.fillna('')] on one cell. *)
Definition fillna_empty (cell : option string) : string :=
  match cell with
  | Some s => s
  | None => EmptyString
  end.

(** [" ".join(df['Title'].fillna('') + " " + df['H1'].fillna(''))] *)
Definition all_text (df : list competitor) : string :=
  join " " (map (fun r => (fillna_empty (Title r) ++ " " ++ H1 r)%string) df).

Section Display.
(** [DataFrame.to_markdown], of pandas. *)
Variable to_markdown : list competitor -> string.

(** The function after the analysis: [df] is the table. *)
Definition show_competitors (df : list competitor) : list ui * string :=
  match df with
  | _ :: _ =>
      let common_keywords := extract_keywords (all_text df) 10 in
      ([ StSubheader "Top Search Competitors Analysis"; StDataframe df ]
       ++ match common_keywords with
          | _ :: _ =>
              [ StWrite "**Common keywords in top results:**"
                  (join ", " (slice_to 5 common_keywords)) ]
          | [] => []
          end,
       to_markdown df)
  | [] =>
      ([ StWarning "No competitor data found. Please check your search query." ],
       EmptyString)
  end.

Definition display_competitor_analysis (cfg : Config) (world : World)
           (search_query : string) : M (list ui * string) :=
  competitor_df <- analyze_competitors cfg world search_query 3 ;;
  ret (show_competitors competitor_df).

End Display.

Definition is_newline (c : ascii) : bool := is_code 10 c.

(** [seo_text.split('\n')[0]] *)
Definition first_line (seo_text : string) : string :=
  match re_split is_newline seo_text with
  | line :: _ => line
  | [] => EmptyString
  end.

(** The meta tags the text analysis suggests for a pasted text, if it
    does: the text must have more than two line feeds and a first line
    shorter than 120 characters, taken as the title. *)
Definition suggested_meta_tags (seo_text : string) : option string :=
  let extracted_keywords := extract_keywords seo_text 10 in
  if (2 <? count_chars is_newline seo_text)%nat then
    let first_line := first_line seo_text in
    if (String.length first_line <? 120)%nat then
      Some (generate_meta_tags first_line (suggested_description seo_text)
              (slice_to 5 extracted_keywords))
    else None
  else None.

(** The text two placeholders give a row without title and heading. *)
Definition placeholders : string := "No title No H1".

End App.

Module MoreSamples.
Import PyStr PyNum Readability MetaTags Competitors Samples.
Local Open Scope string_scope.

(** Spaces, a tab and a line feed. *)
Definition blank_text : string :=
  String " " (String (ascii_of_nat 9) (String (ascii_of_nat 10) " ")).

(** The report of the empty text. *)
Definition empty_report : report :=
  {| word_count := 0;
     sentence_count := 0;
     avg_sentence_length := PyInt 0;
     avg_word_length := PyInt 0;
     reading_level := "Easy" |}.

(** A world without network: every request raises. *)
Definition offline_world : World :=
  {| search_get := fun _ => inl (Exc "ConnectionError" "no route to host");
     page_get := fun _ _ => inl (Exc "ConnectionError" "no route to host");
     BeautifulSoup := fun _ => inr bare_page |}.

(** A title and three lines. *)
Definition pasted_text : string :=
  "Ten tips" ++ nl ++ "First tip." ++ nl ++ "Second tip." ++ nl ++ "Third.".

End MoreSamples.

(* ===================================================================== *)
(** * Properties *)
(* ===================================================================== *)

Unset Implicit Arguments.

(** ** Keyword extractor *)

Module KeywordsProofs.
Import PyStr Keywords KeywordsRef.

(** **** Tokens *)

Lemma emit_word3_filter cur :
  emit_word3 cur = filter (fun w => 3 <=? String.length w) [cur].
Proof.
  unfold emit_word3. cbn [filter].
  destruct (3 <=? String.length cur); reflexivity.
Qed.

Lemma findall_word3_from_pieces s : forall cur,
  findall_word3_from cur s
  = filter (fun w => 3 <=? String.length w) (re_split_from non_word cur s).
Proof.
  induction s as [|c s IH]; intros cur; cbn [findall_word3_from re_split_from].
  - apply emit_word3_filter.
  - unfold non_word at 1. destruct (is_word c); cbn [negb filter].
    + apply IH.
    + rewrite IH. unfold emit_word3.
      destruct (3 <=? String.length cur); reflexivity.
Qed.

Lemma findall_word3_tokens text : findall_word3 (lower text) = tokens text.
Proof. apply findall_word3_from_pieces. Qed.

(** **** Distinct elements *)

Lemma eqb_neq_false (x y : string) : x <> y -> String.eqb x y = false.
Proof. intros H. now apply String.eqb_neq. Qed.

Lemma In_distinct l x : In x (distinct l) <-> In x l.
Proof.
  induction l as [|y l IH]; simpl; [tauto|].
  rewrite filter_In, IH. split.
  - intros [H|[H _]]; auto.
  - intros [H|H]; auto.
    destruct (string_dec y x) as [E|N]; auto.
    right. split; auto. now rewrite eqb_neq_false.
Qed.

Lemma NoDup_distinct l : NoDup (distinct l).
Proof.
  induction l as [|y l IH]; simpl; constructor.
  - rewrite filter_In, String.eqb_refl. simpl. intros [_ H]. discriminate.
  - now apply NoDup_filter.
Qed.

Lemma filter_neq_notin x l :
  ~ In x l -> filter (fun y => negb (String.eqb x y)) l = l.
Proof.
  induction l as [|y l IH]; simpl; intros H; [reflexivity|].
  rewrite eqb_neq_false by (intros E; apply H; auto).
  simpl. f_equal. apply IH. tauto.
Qed.

Lemma distinct_snoc l w :
  distinct (l ++ [w]) = if in_dec string_dec w l then distinct l
                        else distinct l ++ [w].
Proof.
  induction l as [|x l IH]; simpl.
  - reflexivity.
  - rewrite IH. destruct (string_dec x w) as [E|N].
    + subst x. destruct (in_dec string_dec w l) as [I|I]; [reflexivity|].
      rewrite filter_app. simpl. rewrite String.eqb_refl. simpl.
      now rewrite app_nil_r.
    + destruct (in_dec string_dec w l) as [I|I]; [reflexivity|].
      rewrite filter_app. simpl. now rewrite eqb_neq_false.
Qed.

(** **** The counter *)

Lemma counter_incr_absent (f : string -> nat) w l :
  ~ In w l ->
  counter_incr w (map (fun k => (k, f k)) l)
  = map (fun k => (k, f k)) l ++ [(w, 1)].
Proof.
  induction l as [|x l IH]; simpl; intros H; [reflexivity|].
  rewrite eqb_neq_false by (intros E; apply H; auto).
  f_equal. apply IH. tauto.
Qed.

Lemma counter_incr_present (f g : string -> nat) w l :
  In w l -> NoDup l ->
  g w = S (f w) -> (forall k, k <> w -> g k = f k) ->
  counter_incr w (map (fun k => (k, f k)) l) = map (fun k => (k, g k)) l.
Proof.
  intros I ND Gw Gk. induction l as [|x l IH]; simpl; [destruct I|].
  inversion ND as [|? ? Hx ND']; subst.
  destruct (string_dec x w) as [E|N].
  - subst x. rewrite String.eqb_refl, Gw. f_equal.
    apply map_ext_in. intros k Hk. rewrite Gk; [reflexivity|].
    intros E. now subst k.
  - rewrite eqb_neq_false by assumption. rewrite Gk by assumption.
    f_equal. apply IH; [|assumption]. destruct I; [contradiction|assumption].
Qed.

Lemma frequency_snoc ws w k :
  frequency (ws ++ [w]) k
  = if string_dec w k then S (frequency ws k) else frequency ws k.
Proof.
  unfold frequency. rewrite count_occ_app. simpl.
  destruct (string_dec w k); lia.
Qed.

Lemma Counter_snoc ws w : Counter (ws ++ [w]) = counter_incr w (Counter ws).
Proof. unfold Counter. now rewrite fold_left_app. Qed.

Lemma Counter_tally ws : Counter ws = tally ws.
Proof.
  induction ws as [|w ws IH] using rev_ind; [reflexivity|].
  rewrite Counter_snoc, IH. unfold tally. rewrite distinct_snoc.
  destruct (in_dec string_dec w ws) as [I|I].
  - apply counter_incr_present.
    + now apply In_distinct.
    + apply NoDup_distinct.
    + rewrite frequency_snoc. destruct (string_dec w w); congruence.
    + intros k N. rewrite frequency_snoc.
      destruct (string_dec w k); [now subst|reflexivity].
  - rewrite counter_incr_absent by now rewrite In_distinct.
    rewrite map_app. simpl. f_equal.
    + apply map_ext_in. intros k Hk. rewrite frequency_snoc.
      destruct (string_dec w k); [|reflexivity].
      subst k. apply (proj1 (In_distinct ws w)) in Hk. contradiction.
    + rewrite frequency_snoc. destruct (string_dec w w); [|congruence].
      unfold frequency.
      now rewrite (proj1 (count_occ_not_In string_dec ws w) I).
Qed.

(** **** The scores *)

Lemma word_scores_tally ws :
  word_scores_of (Counter ws) = map (fun w => (w, score ws w)) (distinct ws).
Proof.
  rewrite Counter_tally. unfold word_scores_of, tally. rewrite map_map.
  reflexivity.
Qed.

Lemma keys_word_scores ws : keys (word_scores_of (Counter ws)) = distinct ws.
Proof.
  rewrite word_scores_tally. unfold keys. rewrite map_map. simpl.
  apply map_id.
Qed.

Lemma getitem_map (f : string -> nat) l x :
  In x l -> getitem (map (fun k => (k, f k)) l) x = f x.
Proof.
  induction l as [|y l IH]; simpl; intros H; [destruct H|].
  destruct (string_dec y x) as [E|N].
  - subst. now rewrite String.eqb_refl.
  - rewrite eqb_neq_false by assumption. apply IH.
    destruct H; [contradiction|assumption].
Qed.

Lemma getitem_word_scores ws x :
  In x (distinct ws) -> getitem (word_scores_of (Counter ws)) x = score ws x.
Proof. intros H. rewrite word_scores_tally. now apply getitem_map. Qed.

(** **** The ranking *)

Lemma first_index_head x ws : first_index (x :: ws) x = 0.
Proof. simpl. now rewrite String.eqb_refl. Qed.

Lemma first_index_tail x y ws :
  x <> y -> first_index (x :: ws) y = S (first_index ws y).
Proof. intros N. simpl. now rewrite eqb_neq_false. Qed.

Lemma StronglySorted_filter_weaken (R R' : string -> string -> Prop) p l :
  StronglySorted R l ->
  (forall a b, In a (filter p l) -> In b (filter p l) -> R a b -> R' a b) ->
  StronglySorted R' (filter p l).
Proof.
  induction 1 as [|a l SS IH F]; intros W; simpl; [constructor|].
  destruct (p a) eqn:Pa.
  - constructor.
    + apply IH. intros x y Hx Hy Rxy.
      apply W; [simpl; rewrite Pa; now right ..|assumption].
    + rewrite Forall_forall in *. intros y Hy.
      apply W; [simpl; rewrite Pa; now left|simpl; rewrite Pa; now right|].
      apply F. apply filter_In in Hy. tauto.
  - apply IH. intros x y Hx Hy Rxy.
    apply W; [simpl; now rewrite Pa ..|assumption].
Qed.

(** The distinct tokens are listed in the order of first encounter. *)
Lemma distinct_earlier ws : StronglySorted (earlier ws) (distinct ws).
Proof.
  induction ws as [|x ws IH]; simpl; constructor.
  - apply StronglySorted_filter_weaken with (R := earlier ws); [assumption|].
    intros a b Ha Hb. apply filter_In in Ha, Hb.
    destruct Ha as [_ Ha], Hb as [_ Hb].
    apply negb_true_iff, String.eqb_neq in Ha, Hb.
    unfold earlier. rewrite !first_index_tail by assumption. lia.
  - rewrite Forall_forall. intros y Hy. apply filter_In in Hy.
    destruct Hy as [_ Hy]. apply negb_true_iff, String.eqb_neq in Hy.
    unfold earlier. rewrite first_index_head, first_index_tail by assumption.
    lia.
Qed.

Lemma In_insert_ranked ws x l y :
  In y (insert_ranked ws x l) <-> y = x \/ In y l.
Proof.
  induction l as [|z l IH]; simpl.
  - intuition.
  - destruct (ranks_before ws x z); simpl; rewrite ?IH; intuition.
Qed.

Lemma In_ranked ws l y : In y (ranked ws l) <-> In y l.
Proof.
  induction l as [|x l IH]; simpl; [tauto|].
  rewrite In_insert_ranked, IH. intuition.
Qed.

(** In front of tokens met later, moving past the strictly larger scores
    is moving to the place the ranking gives. *)
Lemma insert_desc_ranked ws x l :
  Forall (earlier ws x) l ->
  insert_desc (score ws) x l = insert_ranked ws x l.
Proof.
  induction 1 as [|y l E F IH]; simpl; [reflexivity|].
  unfold ranks_before, earlier in *.
  destruct (score ws x <? score ws y) eqn:L.
  - apply Nat.ltb_lt in L.
    replace (score ws y <? score ws x) with false
      by (symmetry; apply Nat.ltb_ge; lia).
    replace (score ws x =? score ws y) with false
      by (symmetry; apply Nat.eqb_neq; lia).
    simpl. now rewrite IH.
  - apply Nat.ltb_ge in L.
    destruct (score ws y <? score ws x) eqn:G; [reflexivity|].
    apply Nat.ltb_ge in G.
    replace (score ws x =? score ws y) with true
      by (symmetry; apply Nat.eqb_eq; lia).
    replace (first_index ws x <? first_index ws y) with true
      by (symmetry; apply Nat.ltb_lt; lia).
    reflexivity.
Qed.

Lemma sorted_reverse_ranked ws l :
  StronglySorted (earlier ws) l ->
  sorted_reverse (score ws) l = ranked ws l.
Proof.
  induction 1 as [|x l SS IH F]; simpl; [reflexivity|].
  rewrite IH. apply insert_desc_ranked.
  rewrite Forall_forall in *. intros y Hy. apply F. now apply In_ranked in Hy.
Qed.

(** The sort only reads the keys of the elements it sorts. *)
Lemma In_insert_desc key x l y :
  In y (insert_desc key x l) <-> y = x \/ In y l.
Proof.
  induction l as [|z l IH]; simpl.
  - intuition.
  - destruct (key x <? key z); simpl; rewrite ?IH; intuition.
Qed.

Lemma In_sorted_reverse key l y : In y (sorted_reverse key l) <-> In y l.
Proof.
  induction l as [|x l IH]; simpl; [tauto|].
  rewrite In_insert_desc, IH. intuition.
Qed.

Lemma insert_desc_ext key key' x l :
  key x = key' x -> (forall y, In y l -> key y = key' y) ->
  insert_desc key x l = insert_desc key' x l.
Proof.
  intros Hx. induction l as [|z l IH]; intros H; simpl; [reflexivity|].
  rewrite <- Hx, <- (H z) by now left.
  destruct (key x <? key z); [|reflexivity].
  f_equal. apply IH. intros y Hy. apply H. now right.
Qed.

Lemma sorted_reverse_ext key key' l :
  (forall y, In y l -> key y = key' y) ->
  sorted_reverse key l = sorted_reverse key' l.
Proof.
  induction l as [|x l IH]; intros H; simpl; [reflexivity|].
  rewrite <- IH by (intros y Hy; apply H; now right).
  apply insert_desc_ext; [apply H; now left|].
  intros y Hy. apply H. right. now apply In_sorted_reverse in Hy.
Qed.

Lemma insert_desc_perm key x l : Permutation (x :: l) (insert_desc key x l).
Proof.
  induction l as [|z l IH]; simpl; [reflexivity|].
  destruct (key x <? key z); [|reflexivity].
  rewrite perm_swap. now constructor.
Qed.

Lemma sorted_reverse_perm key l : Permutation l (sorted_reverse key l).
Proof.
  induction l as [|x l IH]; simpl; [constructor|].
  rewrite <- insert_desc_perm. now constructor.
Qed.

(** **** The ranked list before the cut *)

Lemma extract_keywords_ranking text top_n :
  extract_keywords text top_n = slice_to top_n (ranking text).
Proof. reflexivity. Qed.

Lemma filtered_kept text :
  filter keep_word (findall_word3 (lower text)) = kept text.
Proof. now rewrite findall_word3_tokens. Qed.

Lemma ranking_ref text :
  ranking text = ranked (kept text) (distinct (kept text)).
Proof.
  unfold ranking. rewrite filtered_kept, keys_word_scores.
  rewrite (sorted_reverse_ext _ (score (kept text))).
  - apply sorted_reverse_ranked, distinct_earlier.
  - intros y Hy. now apply getitem_word_scores.
Qed.

Lemma NoDup_ranking text : NoDup (ranking text).
Proof.
  unfold ranking. rewrite filtered_kept, keys_word_scores.
  eapply Permutation_NoDup; [apply sorted_reverse_perm|apply NoDup_distinct].
Qed.

Lemma NoDup_firstn (A : Type) n (l : list A) : NoDup l -> NoDup (firstn n l).
Proof.
  intros H. rewrite <- (firstn_skipn n l) in H.
  now apply NoDup_app_remove_r in H.
Qed.

Lemma NoDup_slice_to (A : Type) n (l : list A) :
  NoDup l -> NoDup (slice_to n l).
Proof. unfold slice_to. destruct (0 <=? n)%Z; apply NoDup_firstn. Qed.

Lemma slice_to_nonneg (A : Type) n (l : list A) :
  (0 <= n)%Z -> slice_to n l = firstn (Z.to_nat n) l.
Proof. intros H. unfold slice_to. now rewrite (proj2 (Z.leb_le 0 n) H). Qed.

(** **** The claims *)

(** C1, amended: for every text and every integer [n] that is not
    negative, the list [extract_keywords text n] has at most [n]
    elements. *)
Theorem extract_keywords_length (text : string) (n : Z) :
  (0 <= n)%Z ->
  (Z.of_nat (List.length (extract_keywords text n)) <= n)%Z.
Proof.
  intros H. rewrite extract_keywords_ranking, slice_to_nonneg by assumption.
  pose proof (firstn_le_length (Z.to_nat n) (ranking text)). lia.
Qed.

Lemma extract_keywords_length_witness :
  (0 <= 2)%Z /\
  (Z.of_nat (List.length (extract_keywords "the cat sat on the mat" 2)) <= 2)%Z.
Proof.
  split; [discriminate|].
  apply (extract_keywords_length "the cat sat on the mat" 2). discriminate.
Defined.

(** C1 as stated fails at a negative [n]: the slice [[:-1]] drops the last
    keyword only, and two keywords are more than -1. *)
Lemma extract_keywords_length_negative :
  extract_keywords "cat dog bird" (-1) = ["bird"; "cat"]%string /\
  ~ (Z.of_nat (List.length (extract_keywords "cat dog bird" (-1))) <= -1)%Z.
Proof.
  split; [reflexivity|]. vm_compute. intros H. now apply H.
Qed.

(** C2, amended: for every text and every [top_n] that is not negative,
    [extract_keywords text top_n] is the reference computation: the
    tokens of three or more word characters of the lower-cased text,
    without stop-words and numeric tokens, each distinct token scored by
    frequency times length, in decreasing score order with ties in the
    order of first encounter, cut to the first [top_n]. For every [top_n]
    the result has no duplicates and the empty text gives the empty
    list. *)
Theorem extract_keywords_reference (text : string) (top_n : Z) :
  (0 <= top_n)%Z ->
  extract_keywords text top_n = extract_keywords_ref text top_n
  /\ (forall n, NoDup (extract_keywords text n))
  /\ (forall n, extract_keywords EmptyString n = []).
Proof.
  intros H. split; [|split].
  - rewrite extract_keywords_ranking, slice_to_nonneg, ranking_ref
      by assumption.
    reflexivity.
  - intros n. rewrite extract_keywords_ranking.
    apply NoDup_slice_to, NoDup_ranking.
  - intros n. rewrite extract_keywords_ranking. unfold slice_to.
    change (ranking EmptyString) with (@nil string).
    destruct (0 <=? n)%Z; apply firstn_nil.
Qed.

Lemma extract_keywords_reference_witness :
  (0 <= 5)%Z /\
  (extract_keywords "the cat sat on the mat" 5
   = extract_keywords_ref "the cat sat on the mat" 5
   /\ (forall n, NoDup (extract_keywords "the cat sat on the mat" n))
   /\ (forall n, extract_keywords EmptyString n = [])).
Proof.
  split; [discriminate|].
  apply (extract_keywords_reference "the cat sat on the mat" 5). discriminate.
Defined.

(** C2 as stated fails at a negative [top_n]: the code returns all the
    keywords but the last, the reference computation has no first -1
    keywords to return. *)
Lemma extract_keywords_reference_negative :
  extract_keywords "cat dog" (-1) = ["cat"]%string /\
  extract_keywords_ref "cat dog" (-1) = [] /\
  extract_keywords "cat dog" (-1) <> extract_keywords_ref "cat dog" (-1).
Proof. repeat split; [reflexivity .. | discriminate]. Qed.

(** The example of the specification. *)
Example extract_keywords_cat :
  extract_keywords "the cat sat on the mat" 5 = ["cat"; "sat"; "mat"]%string.
Proof. reflexivity. Qed.

End KeywordsProofs.

(** ** Readability analyzer *)

Module ReadabilityProofs.
Import PyStr PyNum Readability Samples.
Local Open Scope Z_scope.

(** [nearest_even n p] is an integer nearest to [n / p]. *)
Lemma nearest_even_close n p :
  0 <= n -> 0 < p -> 2 * Z.abs (n - nearest_even n p * p) <= p.
Proof.
  intros Hn Hp. unfold nearest_even.
  pose proof (Z.div_mod n p ltac:(lia)) as E.
  pose proof (Z.mod_pos_bound n p Hp) as B.
  set (q := n / p) in *. set (r := n mod p) in *. clearbody q r. subst n.
  assert (Hq : p * q + r - q * p = r) by ring.
  assert (Hq1 : p * q + r - (q + 1) * p = r - p) by ring.
  destruct (2 * r ?= p) eqn:C.
  - apply Z.compare_eq in C. destruct (Z.even q); rewrite ?Hq, ?Hq1; lia.
  - change (2 * r < p) in C. rewrite Hq. lia.
  - apply Z.compare_gt_iff in C. rewrite Hq1. lia.
Qed.

(** On a tie the even neighbour is taken. *)
Lemma nearest_even_tie n p :
  0 <= n -> 0 < p -> 2 * (n mod p) = p -> Z.even (nearest_even n p) = true.
Proof.
  intros Hn Hp T. unfold nearest_even. rewrite T, Z.compare_refl.
  destruct (Z.even (n / p)) eqn:E; [assumption|].
  rewrite Z.even_add, E. reflexivity.
Qed.

Lemma level_of_cases x :
  level_of x = "College"%string \/ level_of x = "High School"%string
  \/ level_of x = "Easy"%string.
Proof.
  unfold level_of. destruct (gt_int x 20); [tauto|].
  destruct (gt_int x 15); tauto.
Qed.

Lemma reading_level_raw text :
  reading_level (calculate_readability text)
  = level_of (raw_avg_sentence_length
                (word_count (calculate_readability text))
                (sentence_count (calculate_readability text))).
Proof. reflexivity. Qed.

Lemma long_text_counts :
  word_count (calculate_readability long_text) = 316
  /\ sentence_count (calculate_readability long_text) = 21.
Proof. split; vm_compute; reflexivity. Qed.

(** C3, amended: the reading level is a function of the average sentence
    length before rounding, the quotient of the word count by the
    sentence count (0 without sentences): ["College"] above 20,
    ["High School"] above 15, ["Easy"] otherwise. Two reports with the
    same word count and the same sentence count have the same reading
    level. *)
Theorem reading_level_function_of_counts (text1 text2 : string) :
  word_count (calculate_readability text1)
  = word_count (calculate_readability text2) ->
  sentence_count (calculate_readability text1)
  = sentence_count (calculate_readability text2) ->
  reading_level (calculate_readability text1)
  = level_of (raw_avg_sentence_length
                (word_count (calculate_readability text1))
                (sentence_count (calculate_readability text1)))
  /\ reading_level (calculate_readability text1)
     = reading_level (calculate_readability text2).
Proof.
  intros W S. split; [apply reading_level_raw|].
  rewrite !reading_level_raw, W, S. reflexivity.
Qed.

Lemma reading_level_function_of_counts_witness :
  word_count (calculate_readability "a b. c")
  = word_count (calculate_readability "x. y z")
  /\ sentence_count (calculate_readability "a b. c")
     = sentence_count (calculate_readability "x. y z")
  /\ (reading_level (calculate_readability "a b. c")
      = level_of (raw_avg_sentence_length
                    (word_count (calculate_readability "a b. c"))
                    (sentence_count (calculate_readability "a b. c")))
      /\ reading_level (calculate_readability "a b. c")
         = reading_level (calculate_readability "x. y z")).
Proof.
  split; [reflexivity|]. split; [reflexivity|].
  apply (reading_level_function_of_counts "a b. c" "x. y z"); reflexivity.
Defined.

(** C3 as stated fails: one sentence of 15 words and 316 words in 21
    sentences both report the average sentence length 15.0, the first is
    ["Easy"] and the second ["High School"]; the level of the second is
    not the one its reported average gives. *)
Lemma reading_level_not_function_of_field :
  avg_sentence_length (calculate_readability fifteen_words)
  = avg_sentence_length (calculate_readability long_text)
  /\ avg_sentence_length (calculate_readability long_text)
     = PyFloat (float_of_int 15)
  /\ reading_level (calculate_readability fifteen_words) = "Easy"%string
  /\ reading_level (calculate_readability long_text) = "High School"%string
  /\ reading_level (calculate_readability fifteen_words)
     <> reading_level (calculate_readability long_text)
  /\ reading_level (calculate_readability long_text)
     <> level_of (avg_sentence_length (calculate_readability long_text)).
Proof.
  repeat split; try (vm_compute; reflexivity); vm_compute; discriminate.
Qed.

(** C4: the report of the empty text has no words, no sentences, both
    averages 0 and the level ["Easy"]. *)
Theorem calculate_readability_empty :
  calculate_readability EmptyString
  = {| word_count := 0;
       sentence_count := 0;
       avg_sentence_length := PyInt 0;
       avg_word_length := PyInt 0;
       reading_level := "Easy" |}.
Proof. reflexivity. Qed.


End ReadabilityProofs.

(** ** Meta-tag generator *)

Module MetaTagsProofs.
Import PyStr MetaTags.
Local Open Scope string_scope.

Lemma append_assoc (a b c : string) : (a ++ b) ++ c = a ++ b ++ c.
Proof. induction a as [|x a IH]; simpl; [reflexivity|now rewrite IH]. Qed.

Lemma length_append (a b : string) :
  String.length (a ++ b) = String.length a + String.length b.
Proof. induction a as [|x a IH]; simpl; [reflexivity|now rewrite IH]. Qed.

(** The output, piece by piece. *)
Lemma generate_meta_tags_template title description keywords :
  generate_meta_tags title description keywords
  = (nl ++ indent ++ "<title>") ++ title
    ++ ("</title>" ++ nl ++ indent ++ meta_open "name" "description")
    ++ description
    ++ (dq ++ ">" ++ nl ++ indent ++ meta_open "name" "keywords")
    ++ join ", " keywords
    ++ (dq ++ ">" ++ nl ++ indent ++ meta_open "property" "og:title")
    ++ title
    ++ (dq ++ ">" ++ nl ++ indent ++ meta_open "property" "og:description")
    ++ description
    ++ (dq ++ ">" ++ nl ++ indent).
Proof.
  unfold generate_meta_tags, fstring. cbn [fold_right render_part].
  repeat f_equal. 
Qed.

Lemma contains_middle (pre sub post : string) :
  contains (pre ++ sub ++ post) sub.
Proof. now exists pre, post. Qed.

(** C8: for all inputs the output is the fixed template with the title,
    the description and the comma-joined keywords put in as they are, so
    it contains [<title>title</title>], [content=] followed by the quoted
    description and [content=] followed by the quoted keyword list; for
    the title [T], the description [D] and the keywords [a] and [b] these
    are [<title>T</title>], the quoted [D] and the quoted [a, b]. Nothing
    is escaped: the length of the output is that of the template plus
    those of the inserted strings. *)
Theorem generate_meta_tags_verbatim :
  (forall title description keywords,
      let out := generate_meta_tags title description keywords in
      contains out ("<title>" ++ title ++ "</title>")
      /\ contains out ("content=" ++ dq ++ description ++ dq)
      /\ contains out ("content=" ++ dq ++ join ", " keywords ++ dq)
      /\ String.length out
         = 218 + 2 * String.length title + 2 * String.length description
           + String.length (join ", " keywords))
  /\ (let out := generate_meta_tags "T" "D" ["a"; "b"] in
      contains out "<title>T</title>"
      /\ contains out ("content=" ++ dq ++ "D" ++ dq)
      /\ contains out ("content=" ++ dq ++ "a, b" ++ dq))
  /\ contains (generate_meta_tags "<b>&" "D" []) "<title><b>&</title>".
Proof.
  assert (G : forall title description keywords,
      let out := generate_meta_tags title description keywords in
      contains out ("<title>" ++ title ++ "</title>")
      /\ contains out ("content=" ++ dq ++ description ++ dq)
      /\ contains out ("content=" ++ dq ++ join ", " keywords ++ dq)
      /\ String.length out
         = 218 + 2 * String.length title + 2 * String.length description
           + String.length (join ", " keywords)).
  { intros title description keywords out. subst out.
    rewrite generate_meta_tags_template. repeat split.
    - exists (nl ++ indent).
      eexists. rewrite ?append_assoc. reflexivity.
    - exists ((nl ++ indent ++ "<title>") ++ title ++ "</title>" ++ nl
              ++ indent ++ "<meta name=" ++ dq ++ "description" ++ dq ++ " ").
      eexists. unfold meta_open. rewrite ?append_assoc. simpl.
      rewrite ?append_assoc. reflexivity.
    - exists ((nl ++ indent ++ "<title>") ++ title
              ++ ("</title>" ++ nl ++ indent ++ meta_open "name" "description")
              ++ description
              ++ (dq ++ ">" ++ nl ++ indent ++ "<meta name=" ++ dq
                     ++ "keywords" ++ dq ++ " ")).
      eexists. unfold meta_open. rewrite ?append_assoc. simpl.
      rewrite ?append_assoc. reflexivity.
    - rewrite !length_append. simpl. lia. }
  split; [exact G|]. split.
  - destruct (G "T" "D" ["a"; "b"]) as (H1 & H2 & H3 & _).
    repeat split; assumption.
  - destruct (G "<b>&" "D" []) as (H1 & _). exact H1.
Qed.

End MetaTagsProofs.

(** ** Competitor analyzer *)

Module CompetitorsProofs.
Import PyStr Competitors Samples.

Lemma pages_requested_app tr ext :
  pages_requested (tr ++ ext) = pages_requested tr + pages_requested ext.
Proof. unfold pages_requested. now rewrite filter_app, length_app. Qed.

Lemma truthy_empty s : truthy s = false <-> s = EmptyString.
Proof. destruct s; simpl; split; congruence. Qed.

Section World.
Variable cfg : Config.
Variable world : World.

(** The search returns a list and never raises; it leaves the trace
    alone exactly when the engine id is empty. *)
Lemma get_google_search_results_spec query n tr :
  exists results ext,
    get_google_search_results cfg world query n tr = (inr results, tr ++ ext)
    /\ pages_requested ext = 0
    /\ (GOOGLE_CSE_ID cfg = EmptyString -> results = [] /\ ext = [])
    /\ (GOOGLE_CSE_ID cfg <> EmptyString ->
        exists rest, ext = EvSearch (search_request cfg query n) :: rest).
Proof.
  unfold get_google_search_results.
  destruct (truthy (GOOGLE_CSE_ID cfg)) eqn:T; simpl.
  - assert (N : GOOGLE_CSE_ID cfg <> EmptyString)
      by (intros E; rewrite E in T; discriminate).
    unfold try_except, bind, requests_get_search, json_get_items, answer,
      print, emit, ret.
            destruct (search_get world (search_request cfg query n)) as [e|response].
    + exists [], [EvSearch (search_request cfg query n); 
                  EvPrint ("Error fetching Google results: " ++ exc_str e)%string].
      rewrite <- app_assoc. simpl. repeat split; try congruence; eauto.
    + destruct (status_code response =? 200)%Z.
      * destruct (json_items response) as [e|[items|]].
        -- exists [], [EvSearch (search_request cfg query n);
                      EvPrint ("Error fetching Google results: " ++ exc_str e)%string].
           simpl. rewrite <- app_assoc. simpl.
           repeat split; try congruence; eauto.
        -- exists items, [EvSearch (search_request cfg query n)].
           repeat split; try congruence; eauto.
        -- exists [], [EvSearch (search_request cfg query n)].
           repeat split; try congruence; eauto.
      * exists [], [EvSearch (search_request cfg query n)].
        repeat split; try congruence; eauto.
  - apply truthy_empty in T. exists [], []. rewrite app_nil_r.
    repeat split; congruence.
Qed.

(** One turn of the loop appends the row of the page if it has one, and
    requests one page. *)
Lemma analyze_item_spec it acc tr :
  exists ext,
    analyze_item world it acc tr
    = (inr (acc ++ match page_row world (pages_requested tr) it with
                   | Some r => [r]
                   | None => []
                   end), tr ++ ext)
    /\ pages_requested ext = 1.
Proof.
  unfold analyze_item, page_row, fetched_page, try_except, bind,
    requests_get_page, answer, getitem_content, sleep, print, emit, ret,
    raise, usable_soup, row_of.
  destruct (page_get world (pages_requested tr) (item_url it)) as [e|text].
  - eexists. rewrite app_nil_r, <- app_assoc. split; reflexivity.
  - destruct (BeautifulSoup world text) as [e|s].
    + eexists. rewrite app_nil_r, <- app_assoc. split; reflexivity.
    + destruct (soup_meta_description s) as [[c|]|].
      * eexists. rewrite <- app_assoc. split; reflexivity.
      * eexists. rewrite app_nil_r, <- app_assoc. split; reflexivity.
      * eexists. rewrite <- app_assoc. split; reflexivity.
Qed.

(** The loop returns the rows of the pages that succeed, in order, after
    the rows it started with; it never raises. *)
Lemma analyze_results_spec results : forall acc tr,
  exists ext,
    analyze_results world results acc tr
    = (inr (acc ++ rows_from world (pages_requested tr) results), tr ++ ext).
Proof.
  induction results as [|it rest IH]; intros acc tr; simpl.
  - exists []. unfold ret. now rewrite !app_nil_r.
  - destruct (analyze_item_spec it acc tr) as (ext1 & E1 & P1).
    unfold bind. rewrite E1.
    destruct (IH (acc ++ match page_row world (pages_requested tr) it with
                         | Some r => [r]
                         | None => []
                         end) (tr ++ ext1)) as (ext2 & E2).
    rewrite E2. exists (ext1 ++ ext2).
    rewrite pages_requested_app, P1, Nat.add_1_r, <- !app_assoc.
    destruct (page_row world (pages_requested tr) it); reflexivity.
Qed.

Lemma analyze_competitors_spec query n tr :
  exists results ext1 ext2,
    get_google_search_results cfg world query n tr
    = (inr results, tr ++ ext1)
    /\ pages_requested ext1 = 0
    /\ analyze_competitors cfg world query n tr
       = (inr (rows_from world (pages_requested tr) results),
          tr ++ ext1 ++ ext2).
Proof.
  destruct (get_google_search_results_spec query n tr)
    as (results & ext1 & E1 & P1 & _).
  destruct (analyze_results_spec results [] (tr ++ ext1)) as (ext2 & E2).
  exists results, ext1, ext2. repeat split; try assumption.
  unfold analyze_competitors, bind. rewrite E1, E2.
  now rewrite pages_requested_app, P1, Nat.add_0_r, <- app_assoc.
Qed.


End World.

(** **** The claims *)

(** C5: without search credentials, no API key and no engine id,
    [analyze_competitors] returns the empty table; it raises nothing and
    asks nothing of the network. *)
Theorem analyze_competitors_unconfigured cfg world query n tr :
  GOOGLE_API_KEY cfg = None -> GOOGLE_CSE_ID cfg = EmptyString ->
  analyze_competitors cfg world query n tr = (inr [], tr).
Proof.
  intros _ H. unfold analyze_competitors, get_google_search_results, bind.
  rewrite H. reflexivity.
Qed.

Lemma analyze_competitors_unconfigured_witness :
  GOOGLE_API_KEY (load_config no_environ) = None
  /\ GOOGLE_CSE_ID (load_config no_environ) = EmptyString
  /\ analyze_competitors (load_config no_environ) (sample_world three_results)
       "seo" 3 []
     = (inr [], []).
Proof.
  split; [reflexivity|]. split; [reflexivity|].
  apply (analyze_competitors_unconfigured (load_config no_environ)
           (sample_world three_results) "seo" 3 []); reflexivity.
Defined.


(** Of three results whose second page times out, the first and the third
    are in the table, in this order. *)
Example analyze_competitors_timeout :
  fst (analyze_competitors sample_config (sample_world three_results)
         "seo" 3 [])
  = inr [ row_of (result "http://a.example") page_a;
          row_of (result "http://bare.example") bare_page ].
Proof. reflexivity. Qed.

(** C7, amended: for every fetched page whose description tag, if there
    is one, has a [content], the loop adds a row for the page, with
    ["No title"], ["No H1"] and ["No meta description"] in the place of a
    missing title, first heading and description. *)
Theorem missing_elements_get_sentinels world it acc tr s :
  fetched_page world (pages_requested tr) it = Some s ->
  soup_meta_description s <> Some None ->
  exists r ext,
    analyze_item world it acc tr = (inr (acc ++ [r]), tr ++ ext)
    /\ page_row world (pages_requested tr) it = Some r
    /\ (soup_title s = None -> Title r = Some "No title"%string)
    /\ (soup_h1 s = None -> H1 r = "No H1"%string)
    /\ (soup_meta_description s = None ->
        Meta_Description r = "No meta description"%string).
Proof.
  intros F U.
  assert (P : page_row world (pages_requested tr) it = Some (row_of it s)).
  { unfold page_row, usable_soup. rewrite F.
    destruct (soup_meta_description s) as [[c|]|]; congruence. }
  destruct (analyze_item_spec world it acc tr) as (ext & E & _).
  rewrite P in E. exists (row_of it s), ext.
  repeat split; try assumption; intros H; simpl; now rewrite H.
Qed.

Lemma missing_elements_get_sentinels_witness :
  fetched_page (sample_world three_results) (pages_requested [])
    (result "http://bare.example") = Some bare_page
  /\ soup_meta_description bare_page <> Some None
  /\ exists r ext,
       analyze_item (sample_world three_results)
         (result "http://bare.example") [] []
       = (inr ([] ++ [r]), [] ++ ext)
       /\ page_row (sample_world three_results) (pages_requested [])
            (result "http://bare.example") = Some r
       /\ (soup_title bare_page = None -> Title r = Some "No title"%string)
       /\ (soup_h1 bare_page = None -> H1 r = "No H1"%string)
       /\ (soup_meta_description bare_page = None ->
           Meta_Description r = "No meta description"%string).
Proof.
  split; [reflexivity|]. split; [discriminate|].
  apply (missing_elements_get_sentinels (sample_world three_results)
           (result "http://bare.example") [] [] bare_page);
    [reflexivity|discriminate].
Defined.

(** C7 as stated fails: a page is fetched, it has no title and no
    heading, its description tag has no [content]; reading the attribute
    raises, the handler of the loop skips the page and the table is
    empty. *)
Lemma contentless_description_skipped :
  fetched_page (sample_world [result "http://odd.example"]) 0
    (result "http://odd.example") = Some contentless_page
  /\ soup_title contentless_page = None
  /\ soup_h1 contentless_page = None
  /\ analyze_competitors sample_config
       (sample_world [result "http://odd.example"]) "seo" 3 []
     = (inr [],
        [ EvSearch {| key := Some "key"%string; cx := "engine";
                      q := "seo"; num := 3 |};
          EvGet "http://odd.example";
          EvPrint "Error analyzing http://odd.example: 'content'" ]).
Proof. repeat split. Qed.

(** C10: the search returns at once, asking nothing, exactly when the
    engine id is empty, whatever the API key is; with an engine id and no
    API key the search request is sent, by [get_google_search_results]
    and so by [analyze_competitors]. *)
Theorem search_gate_is_engine_id cfg world query n tr :
  GOOGLE_API_KEY cfg = None -> GOOGLE_CSE_ID cfg <> EmptyString ->
  (forall cfg',
      get_google_search_results cfg' world query n tr = (inr [], tr)
      <-> GOOGLE_CSE_ID cfg' = EmptyString)
  /\ (exists results rest,
         get_google_search_results cfg world query n tr
         = (inr results,
            tr ++ EvSearch {| key := None; cx := GOOGLE_CSE_ID cfg;
                              q := query; num := n |} :: rest))
  /\ (exists rows rest,
         analyze_competitors cfg world query n tr
         = (inr rows,
            tr ++ EvSearch {| key := None; cx := GOOGLE_CSE_ID cfg;
                              q := query; num := n |} :: rest)).
Proof.
  intros K C. split; [|split].
  - intros cfg'.
    destruct (get_google_search_results_spec cfg' world query n tr)
      as (results & ext & E & _ & Hempty & Hset).
    split.
    + intros H. destruct (string_dec (GOOGLE_CSE_ID cfg') EmptyString)
        as [|N]; [assumption|].
      destruct (Hset N) as (rest & ->). rewrite E in H.
      injection H as _ H. rewrite <- (app_nil_r tr) in H at 2.
      apply app_inv_head in H. discriminate.
    + intros H. destruct (Hempty H) as (-> & ->). now rewrite app_nil_r in E.
  - destruct (get_google_search_results_spec cfg world query n tr)
      as (results & ext & E & _ & _ & Hset).
    destruct (Hset C) as (rest & ->). unfold search_request in E.
    rewrite K in E. eauto.
  - destruct (analyze_competitors_spec cfg world query n tr)
      as (results & ext1 & ext2 & E1 & _ & E2).
    destruct (get_google_search_results_spec cfg world query n tr)
      as (results' & ext & E & _ & _ & Hset).
    destruct (Hset C) as (rest & ->). rewrite E in E1.
    injection E1 as <- E1. apply app_inv_head in E1. subst ext1.
    unfold search_request in E2. rewrite K in E2. simpl in E2. eauto.
Qed.

Lemma search_gate_is_engine_id_witness :
  GOOGLE_API_KEY (load_config cse_only_environ) = None
  /\ GOOGLE_CSE_ID (load_config cse_only_environ) <> EmptyString
  /\ ((forall cfg',
          get_google_search_results cfg' (sample_world three_results)
            "seo" 3 [] = (inr [], [])
          <-> GOOGLE_CSE_ID cfg' = EmptyString)
      /\ (exists results rest,
             get_google_search_results (load_config cse_only_environ)
               (sample_world three_results) "seo" 3 []
             = (inr results,
                [] ++ EvSearch {| key := None;
                                  cx := GOOGLE_CSE_ID
                                          (load_config cse_only_environ);
                                  q := "seo"; num := 3 |} :: rest))
      /\ (exists rows rest,
             analyze_competitors (load_config cse_only_environ)
               (sample_world three_results) "seo" 3 []
             = (inr rows,
                [] ++ EvSearch {| key := None;
                                  cx := GOOGLE_CSE_ID
                                          (load_config cse_only_environ);
                                  q := "seo"; num := 3 |} :: rest))).
Proof.
  split; [reflexivity|]. split; [discriminate|].
  apply (search_gate_is_engine_id (load_config cse_only_environ)
           (sample_world three_results) "seo" 3 []);
    [reflexivity|discriminate].
Defined.

End CompetitorsProofs.

(** ** More on strings *)

Module PyStrFacts.
Import PyStr PyStrMore.

Lemma forall_chars_snoc p s c :
  forall_chars p (snoc s c) = forall_chars p s && p c.
Proof.
  unfold snoc. induction s as [|x s IH]; simpl.
  - now rewrite andb_true_r.
  - now rewrite IH, andb_assoc.
Qed.

Lemma length_snoc s c : String.length (snoc s c) = S (String.length s).
Proof. unfold snoc. induction s as [|x s IH]; simpl; [reflexivity|now rewrite IH]. Qed.

Lemma append_snoc cur c s : (snoc cur c ++ s = cur ++ String c s)%string.
Proof. unfold snoc. induction cur as [|x cur IH]; simpl; [reflexivity|now rewrite IH]. Qed.

Lemma In_firstn (A : Type) n (l : list A) x : In x (firstn n l) -> In x l.
Proof.
  intros H. rewrite <- (firstn_skipn n l). apply in_or_app. now left.
Qed.

Lemma In_slice_to (A : Type) n (l : list A) x : In x (slice_to n l) -> In x l.
Proof. unfold slice_to. destruct (0 <=? n)%Z; apply In_firstn. Qed.

Lemma append_empty_r s : (s ++ EmptyString)%string = s.
Proof. induction s as [|c s IH]; simpl; [reflexivity|now rewrite IH]. Qed.

End PyStrFacts.

(** ** More on the keyword extractor *)

Module KeywordsMore.
Import PyStr PyStrMore PyStrFacts Keywords KeywordsRef KeywordsProofs.

(** **** Characters of the tokens *)

Lemma In_emit_word3 cur w : In w (emit_word3 cur) -> w = cur /\ 3 <= String.length w.
Proof.
  unfold emit_word3. destruct (3 <=? String.length cur) eqn:L; simpl; [|tauto].
  intros [<-|[]]. split; [reflexivity|now apply Nat.leb_le].
Qed.

(** A match has three characters or more. *)
Lemma findall_word3_from_length s : forall cur w,
  In w (findall_word3_from cur s) -> 3 <= String.length w.
Proof.
  induction s as [|c s IH]; intros cur w; simpl.
  - intros H. now apply In_emit_word3 in H.
  - destruct (is_word c).
    + apply IH.
    + rewrite in_app_iff. intros [H|H]; [now apply In_emit_word3 in H|eauto].
Qed.

(** A match is made of characters of the run being read and of the text. *)
Lemma findall_word3_from_chars p s : forall cur w,
  forall_chars p cur = true -> forall_chars p s = true ->
  In w (findall_word3_from cur s) -> forall_chars p w = true.
Proof.
  induction s as [|c s IH]; intros cur w Hcur Hs; simpl in *.
  - intros H. apply In_emit_word3 in H. now destruct H as [-> _].
  - apply andb_true_iff in Hs. destruct Hs as [Hc Hs].
    destruct (is_word c).
    + apply IH; [|assumption]. now rewrite forall_chars_snoc, Hcur, Hc.
    + rewrite in_app_iff. intros [H|H].
      * apply In_emit_word3 in H. now destruct H as [-> _].
      * now apply (IH EmptyString).
Qed.

(** A match is made of word characters. *)
Lemma findall_word3_from_word s : forall cur w,
  forall_chars is_word cur = true ->
  In w (findall_word3_from cur s) -> forall_chars is_word w = true.
Proof.
  induction s as [|c s IH]; intros cur w Hcur; simpl.
  - intros H. apply In_emit_word3 in H. now destruct H as [-> _].
  - destruct (is_word c) eqn:W.
    + apply IH. now rewrite forall_chars_snoc, Hcur, W.
    + rewrite in_app_iff. intros [H|H].
      * apply In_emit_word3 in H. now destruct H as [-> _].
      * now apply (IH EmptyString).
Qed.

(** A match is a piece of the run being read followed by the text. *)
Lemma findall_word3_from_contains s : forall cur w,
  In w (findall_word3_from cur s) -> contains (cur ++ s) w.
Proof.
  induction s as [|c s IH]; intros cur w; simpl.
  - intros H. apply In_emit_word3 in H. destruct H as [-> _].
    now exists EmptyString, EmptyString.
  - destruct (is_word c).
    + intros H. apply IH in H. now rewrite append_snoc in H.
    + rewrite in_app_iff. intros [H|H].
      * apply In_emit_word3 in H. destruct H as [-> _].
        now exists EmptyString, (String c s).
      * apply (IH EmptyString) in H. destruct H as (pre & post & E).
        simpl in E. exists (cur ++ String c pre)%string, post.
        rewrite E. now rewrite MetaTagsProofs.append_assoc.
Qed.

(** **** Lower case *)

Lemma lower_char_idempotent c : lower_char (lower_char c) = lower_char c.
Proof. destruct c as [[] [] [] [] [] [] [] []]; reflexivity. Qed.

Lemma lower_is_lower s : forall_chars is_lower (lower s) = true.
Proof.
  induction s as [|c s IH]; simpl; [reflexivity|].
  unfold is_lower at 1. now rewrite lower_char_idempotent, Ascii.eqb_refl, IH.
Qed.

Lemma is_lower_fixed s : forall_chars is_lower s = true -> lower s = s.
Proof.
  induction s as [|c s IH]; simpl; [reflexivity|].
  intros H. apply andb_true_iff in H. destruct H as [Hc Hs].
  apply Ascii.eqb_eq in Hc. now rewrite Hc, IH.
Qed.

Lemma lower_idempotent s : lower (lower s) = lower s.
Proof. apply is_lower_fixed, lower_is_lower. Qed.

(** **** Slices *)

Lemma StronglySorted_firstn (A : Type) (R : A -> A -> Prop) n : forall l,
  StronglySorted R l -> StronglySorted R (firstn n l).
Proof.
  induction n as [|n IH]; intros l H; [constructor|].
  destruct H as [|a l H F]; simpl; constructor.
  - now apply IH.
  - rewrite Forall_forall in *. intros x Hx. apply F. now apply In_firstn in Hx.
Qed.

Lemma StronglySorted_slice_to (A : Type) (R : A -> A -> Prop) n l :
  StronglySorted R l -> StronglySorted R (slice_to n l).
Proof. unfold slice_to. destruct (0 <=? n)%Z; apply StronglySorted_firstn. Qed.

(** **** The order of the sorted keys *)

Lemma insert_desc_sorted key x l :
  StronglySorted (fun a b => key b <= key a) l ->
  StronglySorted (fun a b => key b <= key a) (insert_desc key x l).
Proof.
  induction 1 as [|y l SS IH F]; simpl.
  - repeat constructor.
  - destruct (key x <? key y) eqn:L.
    + apply Nat.ltb_lt in L. constructor; [assumption|].
      rewrite Forall_forall in *. intros z Hz.
      apply In_insert_desc in Hz. destruct Hz as [->|Hz]; [lia|auto].
    + apply Nat.ltb_ge in L. constructor; [now constructor|].
      constructor; [assumption|].
      rewrite Forall_forall in *. intros z Hz. specialize (F z Hz). lia.
Qed.

Lemma sorted_reverse_sorted key l :
  StronglySorted (fun a b => key b <= key a) (sorted_reverse key l).
Proof.
  induction l as [|x l IH]; simpl; [constructor|now apply insert_desc_sorted].
Qed.

Lemma In_ranking text w :
  In w (ranking text) <-> In w (filter keep_word (findall_word3 (lower text))).
Proof.
  unfold ranking. rewrite In_sorted_reverse, keys_word_scores. apply In_distinct.
Qed.

(** The words the extractor keeps and their scores. *)
Lemma getitem_filtered text w :
  In w (filter keep_word (findall_word3 (lower text))) ->
  getitem (word_scores_of (Counter (filter keep_word (findall_word3 (lower text)))))
    w
  = count_occ string_dec (filter keep_word (findall_word3 (lower text))) w
    * String.length w.
Proof.
  intros H. rewrite getitem_word_scores by now apply In_distinct.
  reflexivity.
Qed.

Lemma length_Counter ws : List.length (Counter ws) = List.length (distinct ws).
Proof. rewrite Counter_tally. unfold tally. apply length_map. Qed.

Lemma length_ranking text :
  List.length (ranking text)
  = List.length (Counter (filter keep_word (findall_word3 (lower text)))).
Proof.
  unfold ranking. rewrite <- (Permutation_length (sorted_reverse_perm _ _)).
  unfold keys, word_scores_of. now rewrite !length_map.
Qed.

(** X1: every keyword [extract_keywords] returns is a run of three or more
    word characters of the lower-cased text, is in lower case, and is
    neither a stop-word nor a number. *)
Theorem keywords_are_kept_tokens (text : string) (top_n : Z) (w : string) :
  In w (extract_keywords text top_n) ->
  3 <= String.length w
  /\ forall_chars is_word w = true
  /\ contains (lower text) w
  /\ lower w = w
  /\ is_stop_word w = false
  /\ isdigit w = false.
Proof.
  intros H. rewrite extract_keywords_ranking in H. apply In_slice_to in H.
  apply In_ranking, filter_In in H. destruct H as [T K].
  unfold keep_word in K. apply andb_true_iff in K. destruct K as [K1 K2].
  apply negb_true_iff in K1, K2. unfold findall_word3 in T.
  repeat split; try assumption.
  - now apply findall_word3_from_length in T.
  - now apply findall_word3_from_word in T.
  - now apply findall_word3_from_contains in T.
  - apply is_lower_fixed.
    apply (findall_word3_from_chars is_lower (lower text) EmptyString);
      [reflexivity|apply lower_is_lower|assumption].
Qed.

Lemma keywords_are_kept_tokens_witness :
  In "cat"%string (extract_keywords "The CAT sat on the mat" 2)
  /\ (3 <= String.length "cat"
      /\ forall_chars is_word "cat" = true
      /\ contains (lower "The CAT sat on the mat") "cat"
      /\ lower "cat" = "cat"%string
      /\ is_stop_word "cat" = false
      /\ isdigit "cat" = false).
Proof.
  split; [left; reflexivity|].
  apply (keywords_are_kept_tokens "The CAT sat on the mat" 2 "cat").
  left. reflexivity.
Defined.

(** X2: the keywords come in decreasing order of the score the extractor
    computes, and the score of a keyword is the number of its occurrences
    among the kept words times its length. *)
Theorem keywords_descending_score (text : string) (top_n : Z) :
  let filtered_words := filter keep_word (findall_word3 (lower text)) in
  let word_scores := word_scores_of (Counter filtered_words) in
  StronglySorted (fun a b => getitem word_scores b <= getitem word_scores a)
    (extract_keywords text top_n)
  /\ Forall (fun w => getitem word_scores w
                      = count_occ string_dec filtered_words w * String.length w
                      /\ 1 <= count_occ string_dec filtered_words w)
       (extract_keywords text top_n).
Proof.
  intros filtered_words word_scores. split.
  - apply StronglySorted_slice_to. apply sorted_reverse_sorted.
  - rewrite Forall_forall. intros w H.
    rewrite extract_keywords_ranking in H. apply In_slice_to, In_ranking in H.
    split; [now apply getitem_filtered|].
    now apply (count_occ_In string_dec).
Qed.

(** X3: a shorter list of keywords is the beginning of a longer one: for
    [0 <= n <= m], cutting [extract_keywords text m] to [n] elements gives
    [extract_keywords text n]. *)
Theorem keywords_prefix (text : string) (n m : Z) :
  (0 <= n)%Z -> (n <= m)%Z ->
  slice_to n (extract_keywords text m) = extract_keywords text n.
Proof.
  intros Hn Hm. rewrite !extract_keywords_ranking.
  rewrite !slice_to_nonneg by lia. rewrite firstn_firstn. f_equal. lia.
Qed.

Lemma keywords_prefix_witness :
  (0 <= 5)%Z /\ (5 <= 10)%Z
  /\ slice_to 5 (extract_keywords "the cat sat on the mat" 10)
     = extract_keywords "the cat sat on the mat" 5.
Proof.
  split; [discriminate|]. split; [discriminate|].
  apply (keywords_prefix "the cat sat on the mat" 5 10); discriminate.
Defined.

(** X4: the number of keywords returned: with [d] distinct kept words, it is
    the smaller of [top_n] and [d] for [top_n >= 0] and [d + top_n], or 0 if
    that is negative, for [top_n < 0]. For [top_n >= d] every kept word is
    returned. *)
Theorem keywords_count (text : string) (top_n : Z) :
  let filtered_words := filter keep_word (findall_word3 (lower text)) in
  let d := Z.of_nat (List.length (Counter filtered_words)) in
  Z.of_nat (List.length (extract_keywords text top_n))
  = (if (0 <=? top_n)%Z then Z.min top_n d else Z.max 0 (d + top_n))
  /\ ((d <= top_n)%Z ->
      forall w, In w (extract_keywords text top_n) <-> In w filtered_words).
Proof.
  intros filtered_words d. rewrite extract_keywords_ranking.
  assert (L : Z.of_nat (List.length (ranking text)) = d)
    by (unfold d, filtered_words; now rewrite length_ranking).
  split.
  - unfold slice_to. rewrite length_ranking. fold filtered_words. fold d.
    destruct (0 <=? top_n)%Z eqn:S; rewrite length_firstn.
    + apply Z.leb_le in S. rewrite <- L, length_ranking. lia.
    + apply Z.leb_gt in S. rewrite <- L, length_ranking. lia.
  - intros H w. rewrite slice_to_nonneg by lia.
    rewrite firstn_all2 by lia. apply In_ranking.
Qed.

(** X5: the extractor does not see the case of the text: the lower-cased
    text has the same keywords. *)
Theorem keywords_ignore_case (text : string) (top_n : Z) :
  extract_keywords (lower text) top_n = extract_keywords text top_n.
Proof. unfold extract_keywords. now rewrite lower_idempotent. Qed.

End KeywordsMore.

(** ** More on the readability analyzer *)

Module ReadabilityMore.
Import PyStr PyStrMore PyStrFacts PyNum Readability Tier App MoreSamples.

Lemma snoc_not_empty cur c : snoc cur c <> EmptyString.
Proof. unfold snoc. destruct cur; discriminate. Qed.

Lemma emit_nonempty_nil cur : emit_nonempty cur = [] -> cur = EmptyString.
Proof. unfold emit_nonempty. destruct cur; simpl; [reflexivity|discriminate]. Qed.

(** **** Blank texts *)

Lemma split_from_blank s : forall cur,
  forall_chars isspace s = true -> split_from cur s = emit_nonempty cur.
Proof.
  induction s as [|c s IH]; intros cur H; simpl in *; [reflexivity|].
  apply andb_true_iff in H. destruct H as [Hc Hs]. rewrite Hc.
  rewrite (IH EmptyString Hs). simpl. apply app_nil_r.
Qed.

Lemma split_from_nil s : forall cur,
  split_from cur s = [] -> cur = EmptyString /\ forall_chars isspace s = true.
Proof.
  induction s as [|c s IH]; intros cur H; simpl in *.
  - split; [now apply emit_nonempty_nil|reflexivity].
  - destruct (isspace c).
    + apply app_eq_nil in H. destruct H as [H1 H2].
      split; [now apply emit_nonempty_nil|]. now apply IH in H2.
    + apply IH in H. destruct H as [H _]. now apply snoc_not_empty in H.
Qed.

Lemma lstrip_blank s : forall_chars isspace s = true -> lstrip s = EmptyString.
Proof.
  induction s as [|c s IH]; simpl; [reflexivity|].
  intros H. apply andb_true_iff in H. destruct H as [Hc Hs]. now rewrite Hc, IH.
Qed.

Lemma strip_blank s : forall_chars isspace s = true -> strip s = EmptyString.
Proof. intros H. unfold strip. now rewrite lstrip_blank. Qed.

Lemma re_split_from_chars p sep s : forall cur,
  forall_chars p cur = true -> forall_chars p s = true ->
  Forall (fun piece => forall_chars p piece = true) (re_split_from sep cur s).
Proof.
  induction s as [|c s IH]; intros cur Hcur Hs; simpl in *.
  - now constructor.
  - apply andb_true_iff in Hs. destruct Hs as [Hc Hs].
    destruct (sep c).
    + constructor; [assumption|now apply IH].
    + apply IH; [|assumption]. now rewrite forall_chars_snoc, Hcur, Hc.
Qed.

Lemma no_sentence_in_blank text :
  forall_chars isspace text = true ->
  filter (fun s => truthy (strip s)) (re_split sentence_end text) = [].
Proof.
  intros H. unfold re_split.
  pose proof (re_split_from_chars isspace sentence_end text EmptyString
                eq_refl H) as F.
  induction F as [|piece l P F IH]; simpl; [reflexivity|].
  now rewrite (strip_blank piece P).
Qed.

(** X6: the report of a text made of blank characters only is that of the
    empty text: no word, no sentence, both averages the integer 0, level
    ["Easy"]. *)
Theorem calculate_readability_blank (text : string) :
  forall_chars isspace text = true ->
  calculate_readability text = empty_report.
Proof.
  intros B. unfold calculate_readability.
  rewrite (no_sentence_in_blank text B). unfold split.
  rewrite (split_from_blank text EmptyString B). reflexivity.
Qed.

Lemma calculate_readability_blank_witness :
  forall_chars isspace blank_text = true
  /\ calculate_readability blank_text = empty_report.
Proof.
  split; [reflexivity|].
  apply (calculate_readability_blank blank_text). reflexivity.
Defined.

Lemma word_count_zero text :
  word_count (calculate_readability text) = 0%Z ->
  forall_chars isspace text = true.
Proof.
  simpl. unfold len. intros H.
  assert (E : split text = [])
    by (destruct (split text); [reflexivity|discriminate]).
  now apply split_from_nil in E.
Qed.

(** X7: a report that counts a sentence counts a word. *)
Theorem sentence_needs_word (text : string) :
  (0 < sentence_count (calculate_readability text))%Z ->
  (0 < word_count (calculate_readability text))%Z.
Proof.
  intros S.
  destruct (Z.eq_dec (word_count (calculate_readability text)) 0) as [E|N].
  - apply word_count_zero in E.
    unfold calculate_readability in S. cbn [sentence_count] in S.
    rewrite (no_sentence_in_blank text E) in S. discriminate.
  - assert (0 <= word_count (calculate_readability text))%Z
      by (simpl; unfold len; lia).
    lia.
Qed.

Lemma sentence_needs_word_witness :
  (0 < sentence_count (calculate_readability "Hi there. Bye"))%Z
  /\ (0 < word_count (calculate_readability "Hi there. Bye"))%Z.
Proof.
  split; [reflexivity|].
  apply (sentence_needs_word "Hi there. Bye"). reflexivity.
Defined.

(** **** The length of the words *)

Lemma fold_left_add (f : string -> Z) l : forall a,
  fold_left (fun acc w => (acc + f w)%Z) l a
  = (a + fold_left (fun acc w => (acc + f w)%Z) l 0)%Z.
Proof.
  induction l as [|x l IH]; intros a; cbn [fold_left]; [lia|].
  rewrite (IH (a + f x)%Z), (IH (0 + f x)%Z). lia.
Qed.

Lemma total_length_cons w ws :
  total_length (w :: ws) = (Z.of_nat (String.length w) + total_length ws)%Z.
Proof. unfold total_length. simpl. now rewrite fold_left_add. Qed.

Lemma total_length_app l1 l2 :
  total_length (l1 ++ l2) = (total_length l1 + total_length l2)%Z.
Proof.
  induction l1 as [|w l1 IH]; simpl; [reflexivity|].
  rewrite !total_length_cons, IH. lia.
Qed.

Lemma total_length_emit cur :
  total_length (emit_nonempty cur) = Z.of_nat (String.length cur).
Proof. destruct cur; reflexivity || (unfold emit_nonempty; simpl truthy; cbn iota; rewrite total_length_cons; unfold total_length; simpl; lia). Qed.

Lemma total_length_split_from s : forall cur,
  total_length (split_from cur s)
  = Z.of_nat (String.length cur + count_chars nonspace s).
Proof.
  induction s as [|c s IH]; intros cur; simpl.
  - rewrite total_length_emit. f_equal. lia.
  - unfold nonspace at 1. destruct (isspace c); simpl.
    + rewrite total_length_app, total_length_emit, IH. simpl. lia.
    + rewrite IH, length_snoc. lia.
Qed.

Lemma count_chars_le p s : count_chars p s <= String.length s.
Proof.
  induction s as [|c s IH]; simpl; [lia|]. destruct (p c); lia.
Qed.

(** **** Words *)

Lemma is_token_emit cur :
  forall_chars nonspace cur = true -> Forall (fun w => is_token w = true) (emit_nonempty cur).
Proof.
  intros H. unfold emit_nonempty. destruct (truthy cur) eqn:T; constructor;
    [|constructor]. unfold is_token. now rewrite T, H.
Qed.

Lemma split_from_tokens s : forall cur,
  forall_chars nonspace cur = true ->
  Forall (fun w => is_token w = true) (split_from cur s).
Proof.
  induction s as [|c s IH]; intros cur H; simpl.
  - now apply is_token_emit.
  - destruct (isspace c) eqn:Sp.
    + apply Forall_app. split; [now apply is_token_emit|now apply IH].
    + apply IH. rewrite forall_chars_snoc, H. unfold nonspace. now rewrite Sp.
Qed.

Lemma split_tokens s : Forall (fun w => is_token w = true) (split s).
Proof. now apply split_from_tokens. Qed.

Lemma token_length w : is_token w = true -> 1 <= String.length w.
Proof. destruct w; simpl; [discriminate|lia]. Qed.

Lemma length_le_total ws :
  Forall (fun w => is_token w = true) ws ->
  (Z.of_nat (List.length ws) <= total_length ws)%Z.
Proof.
  induction 1 as [|w ws T F IH]; [reflexivity|].
  rewrite total_length_cons. apply token_length in T. simpl List.length. lia.
Qed.

(** X8: the characters counted for the average word length are the
    characters of the text that are not blank, punctuation included: the
    reported [avg_word_length] is their number divided by the number of
    words and rounded, and there are at least as many of them as words. *)
Theorem avg_word_length_counts_nonblank (text : string) :
  let r := calculate_readability text in
  let chars := Z.of_nat (count_chars nonspace text) in
  avg_word_length r
  = round1 (if (0 <? word_count r)%Z
            then PyFloat (int_true_divide chars (word_count r))
            else PyInt 0)
  /\ (word_count r <= chars <= Z.of_nat (String.length text))%Z.
Proof.
  intros r chars.
  assert (T : total_length (split text) = chars)
    by (unfold split; now rewrite total_length_split_from).
  split.
  - unfold r. simpl. unfold raw_avg_word_length. now rewrite T.
  - split.
    + rewrite <- T. apply length_le_total, split_tokens.
    + unfold chars. pose proof (count_chars_le nonspace text). lia.
Qed.

(** **** Joining words and splitting again *)

Lemma split_from_word w : forall cur s,
  forall_chars nonspace w = true ->
  split_from cur (w ++ s) = split_from (cur ++ w) s.
Proof.
  induction w as [|c w IH]; intros cur s H; simpl in *.
  - f_equal. clear. induction cur as [|x cur IH]; simpl; [reflexivity|now rewrite <- IH].
  - apply andb_true_iff in H. destruct H as [Hc Hw].
    unfold nonspace in Hc. apply negb_true_iff in Hc. rewrite Hc.
    rewrite IH by assumption. now rewrite append_snoc.
Qed.

Lemma split_join ws :
  Forall (fun w => is_token w = true) ws -> split (join " " ws) = ws.
Proof.
  induction 1 as [|w ws T F IH]; [reflexivity|].
  unfold is_token in T. apply andb_true_iff in T. destruct T as [T1 T2].
  destruct ws as [|w2 ws].
  - simpl. unfold split.
    replace w with (w ++ EmptyString)%string at 1
      by (clear; induction w as [|x w IH]; simpl; [reflexivity|now rewrite IH]).
    rewrite split_from_word by assumption. simpl.
    unfold emit_nonempty. now rewrite T1.
  - change (join " " (w :: w2 :: ws))
      with (w ++ String " "%char (join " " (w2 :: ws)))%string.
    unfold split. rewrite split_from_word by assumption.
    simpl split_from. unfold emit_nonempty. simpl append. rewrite T1.
    simpl. f_equal. exact IH.
Qed.

(** X9: splitting at blanks what [" ".join] makes of the words of a text
    gives these words back; so the suggested description, the first 25
    words of the text joined by single spaces, has exactly these words, at
    most 25. *)
Theorem description_words (seo_text : string) :
  split (join " " (split seo_text)) = split seo_text
  /\ split (suggested_description seo_text) = slice_to 25 (split seo_text)
  /\ List.length (split (suggested_description seo_text)) <= 25.
Proof.
  split; [apply split_join, split_tokens|].
  assert (E : split (suggested_description seo_text)
              = slice_to 25 (split seo_text)).
  { unfold suggested_description. apply split_join.
    rewrite Forall_forall. intros w H. apply In_slice_to in H.
    pose proof (split_tokens seo_text) as F. rewrite Forall_forall in F.
    now apply F. }
  split; [exact E|]. rewrite E.
  rewrite KeywordsProofs.slice_to_nonneg by discriminate.
  exact (firstn_le_length (Z.to_nat 25) (split seo_text)).
Qed.

(** **** The order of the reading levels *)

Lemma SFltb_leb_trans mc ec x y :
  SFltb (S754_finite false mc ec) x = true -> SFleb x y = true ->
  SFltb (S754_finite false mc ec) y = true.
Proof.
  unfold SFltb, SFleb, SFcompare.
  destruct x as [sx|[|]| |[|] mx ex], y as [sy|[|]| |[|] my ey];
    try discriminate; try reflexivity; try (intros _; discriminate).
  fold (Pos.compare mc mx). fold (Pos.compare mx my). fold (Pos.compare mc my).
  destruct (Z.compare_spec ec ex), (Z.compare_spec ex ey), (Z.compare_spec ec ey);
    try discriminate; try reflexivity; try lia; subst;
    destruct (Pos.compare_spec mc mx), (Pos.compare_spec mx my),
      (Pos.compare_spec mc my);
    try discriminate; try reflexivity; try lia.
Qed.

(** X21: a larger average never gives a lower reading level: for floats
    [x <= y] the level of [y] is at least that of [x]. *)
Theorem level_of_monotone (x y : spec_float) :
  SFleb x y = true ->
  tier (level_of (PyFloat x)) <= tier (level_of (PyFloat y)).
Proof.
  intros H. unfold level_of, gt_int.
  assert (E20 : float_of_int 20 = S754_finite false 5629499534213120 (-48))
    by reflexivity.
  assert (E15 : float_of_int 15 = S754_finite false 8444249301319680 (-49))
    by reflexivity.
  rewrite E20, E15.
  destruct (SFltb (S754_finite false 5629499534213120 (-48)) x) eqn:X20.
  - rewrite (SFltb_leb_trans _ _ x y X20 H). reflexivity.
  - destruct (SFltb (S754_finite false 8444249301319680 (-49)) x) eqn:X15.
    + rewrite (SFltb_leb_trans _ _ x y X15 H).
      destruct (SFltb (S754_finite false 5629499534213120 (-48)) y);
        vm_compute; lia.
    + destruct (SFltb (S754_finite false 5629499534213120 (-48)) y);
        [vm_compute; lia|].
      destruct (SFltb (S754_finite false 8444249301319680 (-49)) y);
        vm_compute; lia.
Qed.

Lemma level_of_monotone_witness :
  SFleb (float_of_int 15) (int_true_divide 316 21) = true
  /\ tier (level_of (PyFloat (float_of_int 15)))
     <= tier (level_of (PyFloat (int_true_divide 316 21))).
Proof.
  split; [reflexivity|].
  apply (level_of_monotone (float_of_int 15) (int_true_divide 316 21)).
  reflexivity.
Defined.

End ReadabilityMore.

(** ** More on the competitor analyzer, and the configuration check *)

Module CompetitorsMoreProofs.
Import PyStr Competitors CompetitorsMore Samples MoreSamples CompetitorsProofs.

Section World.
Variable cfg : Config.
Variable world : World.

(** One turn of the loop: its result and what it leaves in the trace. *)
Lemma analyze_item_trace it acc tr :
  exists ext,
    analyze_item world it acc tr
    = (inr (acc ++ match page_row world (pages_requested tr) it with
                   | Some r => [r]
                   | None => []
                   end), tr ++ ext)
    /\ pages_requested ext = 1
    /\ fetched_urls ext = [item_url it]
    /\ searches ext = []
    /\ sleeps ext = match page_row world (pages_requested tr) it with
                    | Some _ => [2%Z]
                    | None => []
                    end
    /\ List.length (printed ext)
       = match page_row world (pages_requested tr) it with
         | Some _ => 0
         | None => 1
         end.
Proof.
  unfold analyze_item, page_row, fetched_page, try_except, bind,
    requests_get_page, answer, getitem_content, sleep, print, emit, ret,
    raise, usable_soup, row_of.
  destruct (page_get world (pages_requested tr) (item_url it)) as [e|text].
  - eexists. rewrite app_nil_r, <- app_assoc. repeat split.
  - destruct (BeautifulSoup world text) as [e|s].
    + eexists. rewrite app_nil_r, <- app_assoc. repeat split.
    + destruct (soup_meta_description s) as [[c|]|].
      * eexists. rewrite <- app_assoc. repeat split.
      * eexists. rewrite app_nil_r, <- app_assoc. repeat split.
      * eexists. rewrite <- app_assoc. repeat split.
Qed.

Lemma fetched_urls_app a b : fetched_urls (a ++ b) = fetched_urls a ++ fetched_urls b.
Proof. apply flat_map_app. Qed.

Lemma sleeps_app a b : sleeps (a ++ b) = sleeps a ++ sleeps b.
Proof. apply flat_map_app. Qed.

Lemma printed_app a b : printed (a ++ b) = printed a ++ printed b.
Proof. apply flat_map_app. Qed.

Lemma searches_app a b : searches (a ++ b) = searches a ++ searches b.
Proof. apply flat_map_app. Qed.

(** The loop: its result and what it leaves in the trace. *)
Lemma analyze_results_trace results : forall acc tr,
  exists ext,
    analyze_results world results acc tr
    = (inr (acc ++ rows_from world (pages_requested tr) results), tr ++ ext)
    /\ fetched_urls ext = map item_url results
    /\ searches ext = []
    /\ sleeps ext
       = repeat 2%Z (List.length (rows_from world (pages_requested tr) results))
    /\ List.length (printed ext)
       + List.length (rows_from world (pages_requested tr) results)
       = List.length results.
Proof.
  induction results as [|it rest IH]; intros acc tr; simpl.
  - exists []. unfold ret. rewrite !app_nil_r. repeat split.
  - destruct (analyze_item_trace it acc tr)
      as (ext1 & E1 & P1 & U1 & S1 & Z1 & L1).
    unfold bind. rewrite E1.
    destruct (IH (acc ++ match page_row world (pages_requested tr) it with
                         | Some r => [r]
                         | None => []
                         end) (tr ++ ext1))
      as (ext2 & E2 & U2 & S2 & Z2 & L2).
    rewrite E2. exists (ext1 ++ ext2).
    rewrite pages_requested_app, P1, Nat.add_1_r in *.
    rewrite fetched_urls_app, searches_app, sleeps_app, printed_app,
      length_app, U1, U2, S1, S2, Z1, Z2, L1, <- !app_assoc.
    destruct (page_row world (pages_requested tr) it); simpl;
      repeat split; lia.
Qed.

End World.


(** X11: when the search request raises, [analyze_competitors] returns the
    empty table: it prints the error, requests no page and does not
    raise. *)
Theorem analyze_competitors_search_down cfg world query n tr e :
  GOOGLE_CSE_ID cfg <> EmptyString ->
  search_get world (search_request cfg query n) = inl e ->
  analyze_competitors cfg world query n tr
  = (inr [], tr ++ [ EvSearch (search_request cfg query n);
                     EvPrint ("Error fetching Google results: " ++ exc_str e) ]).
Proof.
  intros N E. unfold analyze_competitors, get_google_search_results.
  destruct (truthy (GOOGLE_CSE_ID cfg)) eqn:T.
  - simpl. unfold try_except, bind, requests_get_search, print, emit, ret.
    rewrite E. simpl. now rewrite <- app_assoc.
  - apply truthy_empty in T. contradiction.
Qed.

Lemma analyze_competitors_search_down_witness :
  GOOGLE_CSE_ID sample_config <> EmptyString
  /\ search_get offline_world (search_request sample_config "seo" 3)
     = inl (Exc "ConnectionError" "no route to host")
  /\ analyze_competitors sample_config offline_world "seo" 3 []
     = (inr [], [] ++ [ EvSearch (search_request sample_config "seo" 3);
                        EvPrint ("Error fetching Google results: "
                                 ++ exc_str (Exc "ConnectionError"
                                               "no route to host")) ]).
Proof.
  split; [discriminate|]. split; [reflexivity|].
  apply (analyze_competitors_search_down sample_config offline_world "seo" 3 []
           (Exc "ConnectionError" "no route to host"));
    [discriminate|reflexivity].
Defined.

(** X12: the loop requests the page of every search result once, in the
    order of the results, whether earlier pages failed or not, and sends no
    search request. *)
Theorem every_result_is_fetched_once world results acc tr :
  fetched_urls (snd (analyze_results world results acc tr))
  = fetched_urls tr ++ map item_url results
  /\ searches (snd (analyze_results world results acc tr)) = searches tr.
Proof.
  destruct (analyze_results_trace world results acc tr)
    as (ext & E & U & S & _).
  rewrite E. simpl. rewrite fetched_urls_app, searches_app, U, S.
  now rewrite app_nil_r.
Qed.

(** X13: the loop sleeps 2 seconds after each page that gives a row, the
    last one included, and not after a page that fails; it prints one line
    for each page that fails. So there are as many sleeps as rows, and
    printed lines and rows add up to the results. *)
Theorem sleeps_and_errors world results tr :
  let rows := rows_from world (pages_requested tr) results in
  let tr' := snd (analyze_results world results [] tr) in
  fst (analyze_results world results [] tr) = inr rows
  /\ sleeps tr' = sleeps tr ++ repeat 2%Z (List.length rows)
  /\ List.length (printed tr') + List.length rows
     = List.length (printed tr) + List.length results
  /\ List.length rows <= List.length results.
Proof.
  intros rows tr'. unfold tr', rows.
  destruct (analyze_results_trace world results [] tr)
    as (ext & E & _ & _ & Z & L).
  rewrite E. simpl. rewrite sleeps_app, printed_app, length_app, Z.
  repeat split; lia.
Qed.

(** X14: when [verify_config] returns, there is an API key; if it printed
    nothing, there is an engine id and the search sends its request; if it
    printed its warning, [analyze_competitors] returns the empty table
    without any request. *)
Theorem verify_config_and_search cfg world query n tr tr' :
  verify_config cfg tr = (inr tt, tr') ->
  truthy_opt (GOOGLE_API_KEY cfg) = true
  /\ (tr' = tr \/ tr' = tr ++ [EvPrint cse_warning])
  /\ (tr' = tr ->
      exists results rest,
        get_google_search_results cfg world query n tr'
        = (inr results, tr' ++ EvSearch (search_request cfg query n) :: rest))
  /\ (tr' <> tr -> analyze_competitors cfg world query n tr' = (inr [], tr')).
Proof.
  unfold verify_config.
  destruct (truthy_opt (GOOGLE_API_KEY cfg)) eqn:K; simpl; [|discriminate].
  destruct (truthy (GOOGLE_CSE_ID cfg)) eqn:T; simpl.
  - unfold ret. intros E. injection E as <-.
    split; [reflexivity|]. split; [now left|]. split; [|congruence].
    intros _.
    destruct (get_google_search_results_spec cfg world query n tr)
      as (results & ext & E & _ & _ & Hset).
    destruct Hset as (rest & ->);
      [intros C; rewrite C in T; discriminate|]. eauto.
  - unfold print, emit. intros E. injection E as <-.
    apply truthy_empty in T.
    split; [reflexivity|]. split; [now right|]. split.
    + intros C. rewrite <- (app_nil_r tr) in C at 2.
      apply app_inv_head in C. discriminate.
    + intros _. unfold analyze_competitors, get_google_search_results, bind.
      now rewrite T.
Qed.

Lemma verify_config_and_search_witness :
  verify_config sample_config [] = (inr tt, [])
  /\ (truthy_opt (GOOGLE_API_KEY sample_config) = true
      /\ (@nil event = [] \/ [] = [] ++ [EvPrint cse_warning])
      /\ (@nil event = [] ->
          exists results rest,
            get_google_search_results sample_config
              (sample_world three_results) "seo" 3 []
            = (inr results,
               [] ++ EvSearch (search_request sample_config "seo" 3) :: rest))
      /\ (@nil event <> [] ->
          analyze_competitors sample_config (sample_world three_results)
            "seo" 3 [] = (inr [], []))).
Proof.
  split; [reflexivity|].
  apply (verify_config_and_search sample_config (sample_world three_results)
           "seo" 3 [] []).
  reflexivity.
Defined.

End CompetitorsMoreProofs.

(** ** The application *)

Module AppProofs.
Import PyStr PyStrMore PyStrFacts Keywords MetaTags Competitors App.
Import KeywordsProofs KeywordsMore ReadabilityMore.

(** **** Stripping *)

Lemma rstrip_idempotent s : rstrip (rstrip s) = rstrip s.
Proof.
  induction s as [|c s IH]; simpl; [reflexivity|].
  destruct (rstrip s) as [|d r] eqn:R.
  - destruct (isspace c) eqn:Sp; simpl; [reflexivity|now rewrite Sp].
  - simpl in IH. simpl. destruct (rstrip r) as [|d' r'] eqn:R'.
    + destruct (isspace d); [discriminate|]. now rewrite IH.
    + now rewrite IH.
Qed.

Lemma lstrip_head c s : isspace c = false -> lstrip (String c s) = String c s.
Proof. intros H. simpl. now rewrite H. Qed.

Lemma rstrip_head c s :
  isspace c = false -> exists r, rstrip (String c s) = String c r.
Proof.
  intros H. simpl. destruct (rstrip s); [rewrite H|]; eauto.
Qed.

Lemma lstrip_cases s :
  lstrip s = EmptyString
  \/ exists c t, lstrip s = String c t /\ isspace c = false.
Proof.
  induction s as [|c s IH]; simpl; [now left|].
  destruct (isspace c) eqn:Sp; [assumption|]. right. eauto.
Qed.

Lemma strip_idempotent s : strip (strip s) = strip s.
Proof.
  unfold strip. destruct (lstrip_cases s) as [E|(c & t & E & Sp)]; rewrite E.
  - reflexivity.
  - destruct (rstrip_head c t Sp) as (r & R). rewrite R.
    rewrite (lstrip_head c r Sp), <- R. apply rstrip_idempotent.
Qed.

Lemma lstrip_chars p s :
  forall_chars p s = true -> forall_chars p (lstrip s) = true.
Proof.
  induction s as [|c s IH]; simpl; [reflexivity|].
  intros H. destruct (isspace c); [|assumption].
  apply andb_true_iff in H. now apply IH.
Qed.

Lemma rstrip_chars p s :
  forall_chars p s = true -> forall_chars p (rstrip s) = true.
Proof.
  induction s as [|c s IH]; simpl; [reflexivity|].
  intros H. apply andb_true_iff in H. destruct H as [Hc Hs].
  specialize (IH Hs). destruct (rstrip s) as [|d r].
  - destruct (isspace c); simpl; [reflexivity|now rewrite Hc].
  - simpl in *. now rewrite Hc, IH.
Qed.

Lemma strip_chars p s :
  forall_chars p s = true -> forall_chars p (strip s) = true.
Proof. intros H. unfold strip. now apply rstrip_chars, lstrip_chars. Qed.

(** **** Pieces *)

Lemma length_re_split_from sep s : forall cur,
  List.length (re_split_from sep cur s) = S (count_chars sep s).
Proof.
  induction s as [|c s IH]; intros cur; simpl; [reflexivity|].
  destruct (sep c); simpl; now rewrite IH.
Qed.

Lemma re_split_from_no_sep sep s : forall cur,
  forall_chars (fun c => negb (sep c)) cur = true ->
  Forall (fun piece => forall_chars (fun c => negb (sep c)) piece = true)
    (re_split_from sep cur s).
Proof.
  induction s as [|c s IH]; intros cur H; simpl.
  - now constructor.
  - destruct (sep c) eqn:S.
    + constructor; [assumption|now apply IH].
    + apply IH. now rewrite forall_chars_snoc, H, S.
Qed.

(** X15: the keywords read from the input line: none for the empty line,
    otherwise one more than there are commas, empty ones included; every
    keyword is stripped of the blanks around it and has no comma. *)
Theorem parse_keywords_shape (keywords_input : string) :
  List.length (parse_keywords keywords_input)
  = (if truthy keywords_input then S (count_chars is_comma keywords_input)
     else 0)
  /\ Forall (fun k => strip k = k /\ forall_chars no_comma k = true)
       (parse_keywords keywords_input).
Proof.
  unfold parse_keywords, split_commas, re_split.
  destruct (truthy keywords_input); [|split; [reflexivity|constructor]].
  split.
  - now rewrite length_map, length_re_split_from.
  - rewrite Forall_map.
    pose proof (re_split_from_no_sep is_comma keywords_input EmptyString
                  eq_refl) as F.
    rewrite Forall_forall in *. intros piece H. split.
    + apply strip_idempotent.
    + apply strip_chars. now apply F.
Qed.

(** **** Joining keywords and reading them again *)

Lemma re_split_from_piece sep k : forall cur s,
  forall_chars (fun c => negb (sep c)) k = true ->
  re_split_from sep cur (k ++ s) = re_split_from sep (cur ++ k) s.
Proof.
  induction k as [|c k IH]; intros cur s H; simpl in *.
  - now rewrite append_empty_r.
  - apply andb_true_iff in H. destruct H as [Hc Hk].
    apply negb_true_iff in Hc. rewrite Hc.
    rewrite IH by assumption. now rewrite append_snoc.
Qed.

Lemma split_commas_join k ks : forall cur,
  Forall (fun k => forall_chars no_comma k = true) (k :: ks) ->
  re_split_from is_comma cur (join ", " (k :: ks))
  = (cur ++ k)%string :: map (fun x => String " " x) ks.
Proof.
  revert k. induction ks as [|k2 ks IH]; intros k cur F.
  - inversion F as [|? ? Hk _]; subst. simpl.
    rewrite <- (append_empty_r k) at 1.
    now rewrite re_split_from_piece.
  - inversion F as [|? ? Hk F']; subst.
    change (join ", " (k :: k2 :: ks))
      with (k ++ String "," (String " " (join ", " (k2 :: ks))))%string.
    rewrite re_split_from_piece by assumption.
    cbn [re_split_from]. change (is_comma ",") with true.
    change (is_comma " ") with false. cbv iota.
    f_equal. change (snoc EmptyString " ") with " "%string.
    now rewrite IH.
Qed.

(** X16: joining keywords with [", "] and reading the line back gives the
    same keywords, when they are stripped, have no comma and the line is
    not empty. *)
Theorem parse_keywords_join (keywords : list string) :
  Forall (fun k => strip k = k /\ forall_chars no_comma k = true) keywords ->
  truthy (join ", " keywords) = true ->
  parse_keywords (join ", " keywords) = keywords.
Proof.
  intros F T. unfold parse_keywords, split_commas, re_split. rewrite T.
  destruct keywords as [|k ks]; [discriminate|].
  rewrite split_commas_join
    by (eapply Forall_impl; [|exact F]; now intros a [_ H]).
  simpl. inversion F as [|? ? [Hk _] F']; subst. rewrite Hk. f_equal.
  rewrite map_map. clear - F'.
  induction F' as [|x l [Hx _] F' IH]; simpl; [reflexivity|].
  rewrite IH. f_equal.
  unfold strip. change (lstrip (String " " x)) with (lstrip x). exact Hx.
Qed.

Lemma parse_keywords_join_witness :
  Forall (fun k => strip k = k /\ forall_chars no_comma k = true)
    ["seo"; "content marketing"; "ai writing"]%string
  /\ truthy (join ", " ["seo"; "content marketing"; "ai writing"]%string) = true
  /\ parse_keywords (join ", " ["seo"; "content marketing"; "ai writing"]%string)
     = ["seo"; "content marketing"; "ai writing"]%string.
Proof.
  assert (F : Forall (fun k => strip k = k /\ forall_chars no_comma k = true)
                ["seo"; "content marketing"; "ai writing"]%string)
    by (repeat constructor).
  split; [exact F|]. split; [reflexivity|].
  apply (parse_keywords_join ["seo"; "content marketing"; "ai writing"]%string);
    [exact F|reflexivity].
Defined.

(** **** What [display_competitor_analysis] shows *)

Lemma ranking_nil_iff text n m :
  (0 < n)%Z -> (0 < m)%Z ->
  extract_keywords text n = [] -> extract_keywords text m = [].
Proof.
  intros Hn Hm. rewrite !extract_keywords_ranking.
  rewrite !slice_to_nonneg by lia.
  destruct (ranking text) as [|w l]; [now rewrite !firstn_nil|].
  destruct (Z.to_nat n) eqn:E; [lia|]. discriminate.
Qed.

Lemma top5_of_top10 text :
  slice_to 5 (extract_keywords text 10) = extract_keywords text 5.
Proof.
  rewrite !extract_keywords_ranking.
  rewrite !slice_to_nonneg by discriminate. now rewrite firstn_firstn.
Qed.

(** X17: without engine id [display_competitor_analysis] shows its warning
    and nothing else, returns the empty string and asks nothing of the
    network. *)
Theorem display_unconfigured to_markdown cfg world search_query tr :
  GOOGLE_CSE_ID cfg = EmptyString ->
  display_competitor_analysis to_markdown cfg world search_query tr
  = (inr ([ StWarning
              "No competitor data found. Please check your search query." ],
          EmptyString), tr).
Proof.
  intros H.
  unfold display_competitor_analysis, analyze_competitors,
    get_google_search_results, bind.
  rewrite H. reflexivity.
Qed.

Lemma display_unconfigured_witness :
  GOOGLE_CSE_ID (load_config Samples.no_environ) = EmptyString
  /\ display_competitor_analysis (fun _ => "table"%string)
       (load_config Samples.no_environ) (Samples.sample_world Samples.three_results)
       "seo" []
     = (inr ([ StWarning
                 "No competitor data found. Please check your search query." ],
             EmptyString), []).
Proof.
  split; [reflexivity|].
  apply (display_unconfigured (fun _ => "table"%string)
           (load_config Samples.no_environ)
           (Samples.sample_world Samples.three_results) "seo" []).
  reflexivity.
Defined.

(** X18: for a table with rows, the function shows the table and returns
    its markdown; the keywords it shows are the five best keywords of the
    titles and headings, and it shows them when there is one. *)
Theorem display_shows_top5 to_markdown (df : list competitor) :
  df <> [] ->
  show_competitors to_markdown df
  = ([ StSubheader "Top Search Competitors Analysis"; StDataframe df ]
     ++ match extract_keywords (all_text df) 5 with
        | _ :: _ =>
            [ StWrite "**Common keywords in top results:**"
                (join ", " (extract_keywords (all_text df) 5)) ]
        | [] => []
        end,
     to_markdown df).
Proof.
  intros N. destruct df as [|r df]; [contradiction|].
  unfold show_competitors. rewrite top5_of_top10. f_equal. f_equal.
  destruct (extract_keywords (all_text (r :: df)) 10) eqn:E10.
  - now rewrite (ranking_nil_iff (all_text (r :: df)) 10 5) by (reflexivity || assumption).
  - destruct (extract_keywords (all_text (r :: df)) 5) eqn:E5; [|reflexivity].
    rewrite (ranking_nil_iff (all_text (r :: df)) 5 10) in E10
      by (reflexivity || assumption).
    discriminate.
Qed.

Lemma display_shows_top5_witness :
  [row_of (Samples.result "http://a.example") Samples.page_a] <> []
  /\ show_competitors (fun _ => "table"%string)
       [row_of (Samples.result "http://a.example") Samples.page_a]
     = ([ StSubheader "Top Search Competitors Analysis";
          StDataframe [row_of (Samples.result "http://a.example") Samples.page_a] ]
        ++ match extract_keywords
                   (all_text [row_of (Samples.result "http://a.example")
                                Samples.page_a]) 5 with
           | _ :: _ =>
               [ StWrite "**Common keywords in top results:**"
                   (join ", "
                      (extract_keywords
                         (all_text [row_of (Samples.result "http://a.example")
                                      Samples.page_a]) 5)) ]
           | [] => []
           end,
        "table"%string).
Proof.
  split; [discriminate|].
  apply (display_shows_top5 (fun _ => "table"%string)
           [row_of (Samples.result "http://a.example") Samples.page_a]).
  discriminate.
Defined.

(** **** Pages without title and heading *)

Lemma lower_app a b : lower (a ++ b) = (lower a ++ lower b)%string.
Proof. induction a as [|c a IH]; simpl; [reflexivity|now rewrite IH]. Qed.

Lemma findall_word3_from_break c s : forall cur t,
  is_word c = false ->
  findall_word3_from cur (s ++ String c t)
  = findall_word3_from cur s ++ findall_word3_from EmptyString t.
Proof.
  induction s as [|d s IH]; intros cur t H; simpl.
  - now rewrite H.
  - destruct (is_word d).
    + now apply IH.
    + rewrite IH by assumption. apply app_assoc.
Qed.

Lemma findall_placeholders n :
  findall_word3 (lower (join " " (repeat placeholders (S n))))
  = repeat "title"%string (S n).
Proof.
  induction n as [|n IH]; [reflexivity|].
  change (join " " (repeat placeholders (S (S n))))
    with (placeholders ++ String " " (join " " (repeat placeholders (S n))))%string.
  rewrite lower_app. cbn [lower]. unfold findall_word3 in *.
  rewrite findall_word3_from_break by reflexivity.
  rewrite IH. reflexivity.
Qed.

Lemma filter_repeat_title n :
  filter keep_word (repeat "title"%string n) = repeat "title"%string n.
Proof.
  induction n as [|n IH]; [reflexivity|].
  cbn [repeat filter]. change (keep_word "title") with true. cbv iota.
  now rewrite IH.
Qed.

Lemma Counter_repeat_from w n : forall k,
  fold_left (fun c x => counter_incr x c) (repeat w n) [(w, k)] = [(w, k + n)].
Proof.
  induction n as [|n IH]; intros k; simpl.
  - now rewrite Nat.add_0_r.
  - rewrite String.eqb_refl, IH. f_equal. f_equal. lia.
Qed.

Lemma Counter_repeat w n : Counter (repeat w (S n)) = [(w, S n)].
Proof. unfold Counter. simpl. now rewrite Counter_repeat_from. Qed.

Lemma keywords_of_placeholders n top_n :
  extract_keywords (join " " (repeat placeholders (S n))) top_n
  = slice_to top_n ["title"%string].
Proof.
  unfold extract_keywords.
  rewrite findall_placeholders, filter_repeat_title, Counter_repeat.
  reflexivity.
Qed.

(** X19: the placeholders count as text: for a table whose pages all lack a
    title and a first heading, the keywords shown as common to the top
    results are the single word [title], the word of ["No title"]. *)
Theorem placeholders_become_keywords to_markdown (df : list competitor) :
  df <> [] ->
  Forall (fun r => Title r = Some "No title"%string /\ H1 r = "No H1"%string)
    df ->
  show_competitors to_markdown df
  = ([ StSubheader "Top Search Competitors Analysis"; StDataframe df;
       StWrite "**Common keywords in top results:**" "title" ],
     to_markdown df).
Proof.
  intros N F.
  assert (T : all_text df = join " " (repeat placeholders (List.length df))).
  { unfold all_text. f_equal. clear N.
    induction F as [|r l [Ht Hh] F IH]; [reflexivity|].
    cbn [map List.length repeat]. now rewrite Ht, Hh, IH. }
  destruct df as [|r df]; [contradiction|].
  unfold show_competitors. rewrite T. simpl List.length.
  rewrite keywords_of_placeholders. reflexivity.
Qed.

Lemma placeholders_become_keywords_witness :
  [row_of (Samples.result "http://bare.example") Samples.bare_page] <> []
  /\ Forall (fun r => Title r = Some "No title"%string /\ H1 r = "No H1"%string)
       [row_of (Samples.result "http://bare.example") Samples.bare_page]
  /\ show_competitors (fun _ => "table"%string)
       [row_of (Samples.result "http://bare.example") Samples.bare_page]
     = ([ StSubheader "Top Search Competitors Analysis";
          StDataframe
            [row_of (Samples.result "http://bare.example") Samples.bare_page];
          StWrite "**Common keywords in top results:**" "title" ],
        "table"%string).
Proof.
  assert (F : Forall (fun r => Title r = Some "No title"%string
                               /\ H1 r = "No H1"%string)
                [row_of (Samples.result "http://bare.example") Samples.bare_page])
    by (repeat constructor).
  split; [discriminate|]. split; [exact F|].
  apply (placeholders_become_keywords (fun _ => "table"%string)
           [row_of (Samples.result "http://bare.example") Samples.bare_page]);
    [discriminate|exact F].
Defined.

(** **** The title of a pasted text *)

Lemma first_piece sep s : forall cur,
  forall_chars (fun c => negb (sep c)) cur = true ->
  exists piece rest,
    re_split_from sep cur s = piece :: rest
    /\ forall_chars (fun c => negb (sep c)) piece = true
    /\ (count_chars sep s = 0 -> (cur ++ s)%string = piece)
    /\ (0 < count_chars sep s ->
        exists c tail, sep c = true
                       /\ (cur ++ s)%string = (piece ++ String c tail)%string).
Proof.
  induction s as [|c s IH]; intros cur H; simpl.
  - exists cur, []. repeat split; try assumption.
    + intros _. apply append_empty_r.
    + lia.
  - destruct (sep c) eqn:S.
    + exists cur, (re_split_from sep EmptyString s).
      repeat split; try assumption; [simpl; lia|]. intros _. eauto.
    + destruct (IH (snoc cur c)) as (piece & rest & E & P & Z & N).
      { now rewrite forall_chars_snoc, H, S. }
      rewrite append_snoc in Z, N. exists piece, rest. simpl.
      repeat split; assumption.
Qed.

(** X20: when the text analysis suggests meta tags, the pasted text has
    more than two line feeds, the title in the tags is its first line, the
    text up to its first line feed, shorter than 120 characters and
    without line feed, and the tags hold [<title>first line</title>]. *)
Theorem suggested_title_is_first_line (seo_text tags : string) :
  suggested_meta_tags seo_text = Some tags ->
  2 < count_chars is_newline seo_text
  /\ String.length (first_line seo_text) < 120
  /\ count_chars is_newline (first_line seo_text) = 0
  /\ (exists tail,
         seo_text = (first_line seo_text ++ String (ascii_of_nat 10) tail)%string)
  /\ contains tags ("<title>" ++ first_line seo_text ++ "</title>").
Proof.
  unfold suggested_meta_tags.
  destruct (2 <? count_chars is_newline seo_text) eqn:C; [|discriminate].
  destruct (String.length (first_line seo_text) <? 120) eqn:L; [|discriminate].
  intros E. injection E as <-.
  apply Nat.ltb_lt in C, L.
  destruct (first_piece is_newline seo_text EmptyString eq_refl)
    as (piece & rest & E & P & _ & N).
  assert (F : first_line seo_text = piece)
    by (unfold first_line, re_split; now rewrite E).
  rewrite F in *. repeat split; try assumption.
  - clear - P. induction piece as [|c piece IH]; simpl in *; [reflexivity|].
    apply andb_true_iff in P. destruct P as [Pc P].
    apply negb_true_iff in Pc. rewrite Pc. now apply IH.
  - destruct N as (c & tail & Sc & T); [lia|]. exists tail.
    simpl in T. rewrite T. repeat f_equal.
    unfold is_newline, is_code, code in Sc. apply N.eqb_eq in Sc.
    rewrite <- (ascii_N_embedding c), Sc. reflexivity.
  - rewrite MetaTagsProofs.generate_meta_tags_template.
    exists (nl ++ indent)%string. eexists.
    rewrite ?MetaTagsProofs.append_assoc. reflexivity.
Qed.

Lemma suggested_title_is_first_line_witness :
  suggested_meta_tags MoreSamples.pasted_text
  = Some (generate_meta_tags "Ten tips"
            (suggested_description MoreSamples.pasted_text)
            (slice_to 5 (extract_keywords MoreSamples.pasted_text 10)))
  /\ (2 < count_chars is_newline MoreSamples.pasted_text
      /\ String.length (first_line MoreSamples.pasted_text) < 120
      /\ count_chars is_newline (first_line MoreSamples.pasted_text) = 0
      /\ (exists tail,
             MoreSamples.pasted_text
             = (first_line MoreSamples.pasted_text
                ++ String (ascii_of_nat 10) tail)%string)
      /\ contains
           (generate_meta_tags "Ten tips"
              (suggested_description MoreSamples.pasted_text)
              (slice_to 5 (extract_keywords MoreSamples.pasted_text 10)))
           ("<title>" ++ first_line MoreSamples.pasted_text ++ "</title>")).
Proof.
  split; [reflexivity|].
  apply (suggested_title_is_first_line MoreSamples.pasted_text
           (generate_meta_tags "Ten tips"
              (suggested_description MoreSamples.pasted_text)
              (slice_to 5 (extract_keywords MoreSamples.pasted_text 10)))).
  reflexivity.
Defined.

End AppProofs.
